(** * citymapper: a shallow embedding of [citymapper/__init__.py]

    The module is Python 2 code (it uses [dict.iteritems] and documents its
    behaviour with [print] statements).  Python values are embedded as the
    inductive type [value]; what a call returns or raises is an [outcome];
    the methods of the class [citymapper], which change the client object,
    a parameter dict or the outside world, are computations in the monad
    [M] over the record [state]. *)

From Stdlib Require Import ZArith String Ascii List.
From Stdlib Require Import SpecFloat DecimalString.
From stdpp Require Import base option list gmap strings.

Import ListNotations.
Local Open Scope string_scope.
Local Open Scope Z_scope.

(** * Part I: the code *)

(** ** Floating point numbers

    A Python [float] is an IEEE 754 binary64 number: [spec_float] of the
    standard library at precision 53 and maximal exponent 1024. *)

Module Float.

Definition float := spec_float.

Definition prec : Z := 53.
Definition emax : Z := 1024.

(** [float(z)] for a Python integer: the nearest binary64 number, ties to
    even.  The result is infinite exactly where CPython raises
    [OverflowError]. *)
Definition of_Z (z : Z) : float := binary_normalize prec emax z 0 false.

Definition add (x y : float) : float := SFadd prec emax x y.
Definition sub (x y : float) : float := SFsub prec emax x y.
Definition div (x y : float) : float := SFdiv prec emax x y.
Definition ltb (x y : float) : bool := SFltb x y.

(** The float a decimal literal [n / 10^d] denotes, e.g. [123.01] is
    [literal 12301 2]: numerator and denominator are exact and the
    division rounds once, to nearest. *)
Definition literal (n : Z) (d : nat) : float :=
  div (of_Z n) (of_Z (10 ^ Z.of_nat d)).

(** [round_half_even n d] is the integer nearest to [n / d], ties to
    even, for [0 <= n] and [0 < d]. *)
Definition round_half_even (n d : Z) : Z :=
  let q := n / d in
  let r := n mod d in
  match 2 * r ?= d with
  | Lt => q
  | Gt => q + 1
  | Eq => if Z.even q then q else q + 1
  end.

(** [scaled m e k] is [m * 2^e * 10^k] rounded to the nearest integer. *)
Definition scaled (m : positive) (e : Z) (k : Z) : Z :=
  if 0 <=? e
  then Z.pos m * 2 ^ e * 10 ^ k
  else round_half_even (Z.pos m * 10 ^ k) (2 ^ (- e)).

End Float.

Abbreviation float := Float.float.

(** ** Strings *)

Definition decimal (n : Z) : string :=
  NilZero.string_of_uint (N.to_uint (Z.to_N n)).

(** [zfill w s] is [s.zfill(w)]: zeros on the left up to the width [w]. *)
Definition zfill (w : nat) (s : string) : string :=
  String.concat "" (repeat "0" (w - String.length s)%nat) ++ s.

(** [rstrip c s] is [s.rstrip(c)] for a one-character argument: the longest
    run of [c] at the end is removed. *)
Fixpoint rstrip (c : ascii) (s : string) : string :=
  match s with
  | EmptyString => EmptyString
  | String a r =>
      match rstrip c r with
      | EmptyString => if Ascii.eqb a c then EmptyString else String a EmptyString
      | r' => String a r'
      end
  end.

(** [sep.join(l)]. *)
Definition join (sep : string) (l : list string) : string :=
  String.concat sep l.

(** [format_f x] is ["{0:f}".format(x)] for a float [x]: fixed notation with
    six digits after the point, correctly rounded. *)
Definition format_f (x : float) : string :=
  match x with
  | S754_nan => "nan"
  | S754_infinity s => if s then "-inf" else "inf"
  | S754_zero s => (if s then "-" else "") ++ "0.000000"
  | S754_finite s m e =>
      let n := Float.scaled m e 6 in
      (if s then "-" else "")
        ++ decimal (n / 10 ^ 6) ++ "." ++ zfill 6 (decimal (n mod 10 ^ 6))
  end.

Definition dquote : string := String (ascii_of_nat 34) EmptyString.

(** ** Values and exceptions *)

#[warnings="-register-all"]
Inductive value :=
| VNone
| VBool (b : bool)
| VInt (z : Z)
| VFloat (x : float)
| VStr (s : string)
| VUnicode (s : string)
| VList (l : list value)
| VTuple (l : list value)
| VSet (l : list value)
| VDict (d : gmap string value).

(** A dict is keyed by strings here.  The code only ever asks a position
    dict for ['lat'] and ['lng'] and only ever stores string keys in a
    parameter dict; in Python 2 the str ['lat'] and the unicode [u'lat'] are
    the same key. *)
Abbreviation dict := (gmap string value).

Inductive exc_class :=
| Exception
| StopIteration
| TypeError
| ValueError
| IndexError
| KeyError
| OverflowError
| ZeroDivisionError
| OtherError (name : string).

(** The argument of an exception.  [Unable x] stands for
    ['Unable to convert {!r} in <lat>,<long>'.format(x)], whose text holds
    the [repr] of [x]. *)
Inductive exc_arg :=
| Text (s : string)
| Unable (x : value)
| Key (k : string).

Inductive outcome (A : Type) :=
| Ok (a : A)
| Raise (c : exc_class) (m : exc_arg).
Arguments Ok {A} a.
Arguments Raise {A} c m.

Global Instance outcome_ret : MRet outcome := fun A a => Ok a.
Global Instance outcome_bind : MBind outcome := fun A B f o =>
  match o with
  | Ok a => f a
  | Raise c m => Raise c m
  end.

(** Truth value testing, as in [if x:]. *)
Definition truthy (v : value) : bool :=
  match v with
  | VNone => false
  | VBool b => b
  | VInt z => negb (z =? 0)
  | VFloat x => match x with S754_zero _ => false | _ => true end
  | VStr s | VUnicode s => negb (String.eqb s "")
  | VList l | VTuple l | VSet l => match l with [] => false | _ => true end
  | VDict d => negb (bool_decide (d = ∅))
  end.

(** [v in [s]] for a str [s]: in Python 2 the unicode [u'arrival'] equals
    the str ['arrival']. *)
Definition in_singleton (v : value) (s : string) : bool :=
  match v with
  | VStr t | VUnicode t => String.eqb t s
  | _ => false
  end.

(** ** The module-level functions *)

(** [isinstance(x, dict)] and [isinstance(x, str)]. *)
Definition isinstance_dict (x : value) : bool :=
  match x with VDict _ => true | _ => false end.
Definition isinstance_str (x : value) : bool :=
  match x with VStr _ => true | _ => false end.

(** [hasattr(x, "strip")], [hasattr(x, "__getitem__")] and
    [hasattr(x, "__iter__")] on the built-in types of Python 2: a str and a
    unicode can be indexed but have no [__iter__]; a set can be iterated but
    not indexed. *)
Definition hasattr_strip (x : value) : bool :=
  match x with VStr _ | VUnicode _ => true | _ => false end.
Definition hasattr_getitem (x : value) : bool :=
  match x with
  | VStr _ | VUnicode _ | VList _ | VTuple _ | VDict _ => true
  | _ => false
  end.
Definition hasattr_iter (x : value) : bool :=
  match x with
  | VList _ | VTuple _ | VSet _ | VDict _ => true
  | _ => false
  end.

Definition islist (x : value) : bool :=
  if isinstance_dict x then false
  else if isinstance_str x then false
  else (negb (hasattr_strip x) && hasattr_getitem x) || hasattr_iter x.

(** [x[i]] for an index [i] that is not negative. *)
Definition getitem (x : value) (i : nat) : outcome value :=
  match x with
  | VList l =>
      match l !! i with
      | Some v => Ok v
      | None => Raise IndexError (Text "list index out of range")
      end
  | VTuple l =>
      match l !! i with
      | Some v => Ok v
      | None => Raise IndexError (Text "tuple index out of range")
      end
  | VStr s | VUnicode s =>
      match String.get i s with
      | Some a => Ok (match x with
                      | VUnicode _ => VUnicode (String a EmptyString)
                      | _ => VStr (String a EmptyString)
                      end)
      | None => Raise IndexError (Text "string index out of range")
      end
  | VSet _ => Raise TypeError (Text "'set' object does not support indexing")
  | VDict _ => Raise KeyError (Text (decimal (Z.of_nat i)))
  | _ => Raise TypeError (Text "object has no attribute '__getitem__'")
  end.

(** [d[k]] for a dict [d] and a string [k]. *)
Definition getkey (d : dict) (k : string) : outcome value :=
  match d !! k with
  | Some v => Ok v
  | None => Raise KeyError (Key k)
  end.

Definition too_large : exc_arg :=
  Text "long int too large to convert to float".

Definition no_format_code_f : exc_arg :=
  Text "Unknown format code 'f' for object of type 'str'".

(** ["{0:f}".format(x)].  An int (and a bool, which is an int) is converted
    to a float first; every other object is formatted through its [str],
    which knows no format code ['f']. *)
Definition format_spec_f (x : value) : outcome string :=
  let of_int z :=
    match Float.of_Z z with
    | S754_infinity _ => Raise OverflowError too_large
    | f => Ok (format_f f)
    end in
  match x with
  | VFloat f => Ok (format_f f)
  | VInt z => of_int z
  | VBool b => of_int (if b then 1 else 0)
  | _ => Raise ValueError no_format_code_f
  end.

(** The lambda [float2str] of [normalize_position]:
    ["{0:f}".format(x).rstrip('0').rstrip('.')]. *)
Definition float2str (x : value) : outcome string :=
  s ← format_spec_f x;
  Ok (rstrip "." (rstrip "0" s)).

Definition normalize_position (x : value) : outcome string :=
  '(lat, lng) ←
    match x with
    | VDict d =>
        if bool_decide (is_Some (d !! "lat")) && bool_decide (is_Some (d !! "lng"))
        then
          a ← getkey d "lat";
          lat ← float2str a;
          b ← getkey d "lng";
          lng ← float2str b;
          Ok (lat, lng)
        else Raise TypeError (Text "Position dict must contain lat and lng keys.")
    | _ =>
        if islist x
        then
          a ← getitem x 0;
          lat ← float2str a;
          b ← getitem x 1;
          lng ← float2str b;
          Ok (lat, lng)
        else Raise TypeError (Unable x)
    end;
  Ok (lat ++ "," ++ lng).

(** ** The client object and the world around it *)

Record citymapper := {
  key : value;
  base_url : string;
  limit : Z;
  api_calls : Z;
  rate : Z;
  last_call_time : float;
}.

(** What a run does that can be observed from outside. *)
Inductive event :=
| Warn (msg : string)            (* warnings.warn(msg) *)
| Sleep (d : float)              (* time.sleep(d) *)
| AsyncioSleep (d : Z)           (* asyncio.sleep(d) *)
| Get (url : string).            (* requests.get(url) *)

(** A parameter dict is an object: it lives in [heap] and is passed around
    by reference, so that what a callee does to it is done to the caller's
    dict. *)
Definition ref := nat.

Record state := {
  self : citymapper;
  heap : list dict;
  clock : float;                 (* what time.time() reads *)
  trace : list event;            (* oldest event first *)
}.

Definition with_self (c : citymapper) (s : state) : state :=
  {| self := c; heap := heap s; clock := clock s; trace := trace s |}.

Definition with_heap (h : list dict) (s : state) : state :=
  {| self := self s; heap := h; clock := clock s; trace := trace s |}.

Definition with_clock (t : float) (s : state) : state :=
  {| self := self s; heap := heap s; clock := t; trace := trace s |}.

Definition with_trace (tr : list event) (s : state) : state :=
  {| self := self s; heap := heap s; clock := clock s; trace := tr |}.

Definition M (A : Type) : Type := state -> outcome A * state.

Global Instance M_ret : MRet M := fun A a s => (Ok a, s).
Global Instance M_bind : MBind M := fun A B f c s =>
  match c s with
  | (Ok a, s') => f a s'
  | (Raise e m, s') => (Raise e m, s')
  end.

Definition lift {A} (o : outcome A) : M A := fun s => (o, s).
Definition raise {A} (c : exc_class) (m : exc_arg) : M A := lift (Raise c m).

Definition get_self : M citymapper := fun s => (Ok (self s), s).
Definition set_self (c : citymapper) : M unit := fun s => (Ok tt, with_self c s).

Definition emit (e : event) : M unit := fun s =>
  (Ok tt, with_trace (trace s ++ [e]) s).

(** [time.time()]. *)
Definition time_time : M float := fun s => (Ok (clock s), s).

(** Time passes: while the caller sleeps, or between two calls. *)
Definition elapse (d : float) : M unit := fun s =>
  (Ok tt, with_clock (Float.add (clock s) d) s).

Definition time_sleep (d : float) : M unit :=
  emit (Sleep d);; elapse d.

Definition asyncio_sleep (d : Z) : M unit :=
  emit (AsyncioSleep d);; elapse (Float.of_Z d).

(** [{}]: a new, empty dict. *)
Definition new_dict : M ref := fun s =>
  (Ok (length (heap s)), with_heap (heap s ++ [∅]) s).

Definition read (p : ref) : M dict := fun s =>
  match heap s !! p with
  | Some d => (Ok d, s)
  | None => (Raise (OtherError "SystemError") (Text "no such object"), s)
  end.

Definition write (p : ref) (d : dict) : M unit := fun s =>
  (Ok tt, with_heap (<[p := d]> (heap s)) s).

(** [p[k] = v]. *)
Definition setitem (p : ref) (k : string) (v : value) : M unit :=
  d ← read p; write p (<[k := v]> d).

(** [p.pop(k)]. *)
Definition pop (p : ref) (k : string) : M value :=
  d ← read p;
  match d !! k with
  | Some v => write p (delete k d);; mret v
  | None => raise KeyError (Key k)
  end.

(** ** The methods of [citymapper] *)

Definition __init__ (key : value) (limit : Z) : citymapper :=
  {| key := key;
     base_url := "https://developer.citymapper.com/";
     limit := 1000;
     api_calls := 0;
     rate := 10;
     last_call_time := S754_zero false |}.

Definition node_traveltime : value := VStr "api/1/traveltime/?".

Definition iso_8601 : string := "time must be in ISO-8601 format".

Definition must_be_arrival : exc_arg :=
  Text ("time_type must be: " ++ dquote ++ "arrival" ++ dquote
        ++ "https://citymapper.3scale.net/docs").

Definition must_be_provided : exc_arg :=
  Text "time_type must be provided when a time is given".

Definition reached : exc_arg :=
  Text "citymapper max daily API calls limit reached".

Definition _transit (origin destination time time_type : value) : M ref :=
  params ← new_dict;
  setitem params "node" node_traveltime;;
  (if truthy time then
     setitem params "time" time;;
     emit (Warn iso_8601);;
     if in_singleton time_type "arrival" then
       setitem params "time_type" time_type
     else if truthy time_type then
       raise Exception must_be_arrival
     else
       raise Exception must_be_provided
   else mret tt);;
  startcoord ← lift (normalize_position origin);
  setitem params "startcoord" (VStr startcoord);;
  endcoord ← lift (normalize_position destination);
  setitem params "endcoord" (VStr endcoord);;
  mret params.

(** The client after [self.api_calls += 1], and after
    [self.last_call_time = t]. *)
Definition counted (c : citymapper) : citymapper :=
  {| key := key c; base_url := base_url c; limit := limit c;
     api_calls := api_calls c + 1;
     rate := rate c; last_call_time := last_call_time c |}.

Definition called_at (t : float) (c : citymapper) : citymapper :=
  {| key := key c; base_url := base_url c; limit := limit c;
     api_calls := api_calls c;
     rate := rate c; last_call_time := t |}.

(** What the module takes from the Python runtime and from the network and
    does not define itself. *)
Section Runtime.

(** Whether [import asyncio] succeeds. *)
Variable asyncio : bool.

(** [requests.get(url)] and [Response.json()]. *)
Variable response : Type.
Variable requests_get : string -> outcome response.
Variable json : response -> outcome value.

(** [str(v)], as a replacement field without format spec renders a value
    that is not a str. *)
Variable py_str : value -> outcome string.

(** The order in which [iteritems] yields the items of a dict.  A Python 2
    dict is a hash table: the order is that of the table, not the order of
    insertion. *)
Variable iteritems : dict -> list (string * value).

(** A replacement field [{v}]. *)
Definition format_field (v : value) : outcome string :=
  match v with
  | VStr s => Ok s
  | _ => py_str v
  end.

(** ["{k}={v}".format(k=k,v=v)]. *)
Definition format_item (kv : string * value) : outcome string :=
  v ← format_field kv.2;
  Ok (kv.1 ++ "=" ++ v).

(** A list comprehension: the elements are taken in order and the first
    exception ends it. *)
Fixpoint comprehension {A B} (f : A -> outcome B) (l : list A)
  : outcome (list B) :=
  match l with
  | [] => Ok []
  | a :: l' => b ← f a; bs ← comprehension f l'; Ok (b :: bs)
  end.

(** In [_request] the line [await asyncio.sleep(1)] is taken as a pause of
    one second; [future] and [delta_t] are computed and never used. *)
Definition _request (query : string) : M response :=
  c ← get_self;
  set_self (counted c);;
  c ← get_self;
  (if limit c <=? api_calls c then raise StopIteration reached else mret tt);;
  now ← time_time;
  let delta_T := Float.sub now (last_call_time c) in
  (if rate c =? 0 then
     raise ZeroDivisionError (Text "integer division or modulo by zero")
   else mret tt);;
  (if Float.ltb (Float.of_Z (60 / rate c)) delta_T then
     let future := Float.add (last_call_time c) (Float.of_Z 6) in
     let delta_t := Float.sub future now in
     if asyncio then asyncio_sleep 1 else time_sleep delta_T
   else mret tt);;
  t ← time_time;
  c ← get_self;
  set_self (called_at t c);;
  emit (Get query);;
  lift (requests_get query).

Definition _make_url (params : ref) : M string :=
  node ← pop params "node";
  c ← get_self;
  setitem params "key" (key c);;
  d ← read params;
  config_str ← lift (comprehension format_item (iteritems d));
  let config_str := join "&" config_str in
  node ← lift (format_field node);
  mret (base_url c ++ node ++ config_str).

Definition transit (origin destination time time_type : value) : M value :=
  params ← _transit origin destination time time_type;
  query ← _make_url params;
  r ← _request query;
  lift (json r).

(** A caller that dispatches one query after the other, lets some time
    pass before each and catches what the dispatcher raises. *)
Fixpoint dispatch_all (calls : list (float * string)) (s : state)
  : list (outcome response) * state :=
  match calls with
  | [] => ([], s)
  | (d, query) :: calls' =>
      let s1 := (elapse d s).2 in
      let r := _request query s1 in
      let rs := dispatch_all calls' r.2 in
      (r.1 :: rs.1, rs.2)
  end.

End Runtime.

(** * Part II: the vocabulary of the properties *)

(** A client in a world where nothing has happened yet. *)
Definition start (c : citymapper) (t : float) : state :=
  {| self := c; heap := []; clock := t; trace := [] |}.

(** The network calls and the pauses of a trace. *)
Definition gets (tr : list event) : list string :=
  omap (fun e => match e with Get u => Some u | _ => None end) tr.

Definition pauses (tr : list event) : list event :=
  List.filter
    (fun e => match e with Sleep _ | AsyncioSleep _ => true | _ => false end)
    tr.

(** The last character of a string, and a run of [n] times [c]. *)
Fixpoint last_char (s : string) : option ascii :=
  match s with
  | EmptyString => None
  | String a r => match r with EmptyString => Some a | _ => last_char r end
  end.

Fixpoint run (c : ascii) (n : nat) : string :=
  match n with
  | O => EmptyString
  | S n' => String c (run c n')
  end.


(** A coordinate: a number in the range of a float. *)
Definition coordinate (v : value) : bool :=
  match v with
  | VFloat _ | VBool _ => true
  | VInt z => match Float.of_Z z with S754_infinity _ => false | _ => true end
  | _ => false
  end.


(** The two components the normalizer reads, where it can read them. *)
Definition components (x : value) : option (value * value) :=
  match x with
  | VDict d => a ← d !! "lat"; b ← d !! "lng"; Some (a, b)
  | VList (a :: b :: _) | VTuple (a :: b :: _) => Some (a, b)
  | _ => None
  end.



(** [time_type in ['arrival']] holds of the str and of the unicode. *)
Definition is_arrival (v : value) : Prop :=
  v = VStr "arrival" \/ v = VUnicode "arrival".

(** The dict of a transit request with a time. *)
Definition timed_params (time time_type : value) (o d : string) : dict :=
  <["endcoord" := VStr d]>
    (<["startcoord" := VStr o]>
       (<["time_type" := time_type]>
          (<["time" := time]> {[ "node" := node_traveltime ]}))).

(** The state in which the checks on [time_type] are made. *)
Definition checking (time : value) (s : state) : state :=
  with_trace (trace s ++ [Warn iso_8601])
    (with_heap (heap s ++ [<["time" := time]> {[ "node" := node_traveltime ]}]) s).

(** The text of an item whose value is a str. *)
Definition render (kv : string * value) : string :=
  kv.1 ++ "=" ++ match kv.2 with VStr v => v | _ => "" end.

Definition is_str (v : value) : Prop :=
  match v with VStr _ => True | _ => False end.

(** The text of the URL, from the dict as it is after the key went in. *)
Definition url_of (py_str : value -> outcome string)
    (iteritems : dict -> list (string * value))
    (c : citymapper) (node : value) (d : dict) : outcome string :=
  config_str ← comprehension (format_item py_str) (iteritems d);
  node ← format_field py_str node;
  Ok (base_url c ++ node ++ join "&" config_str).

(** A call that ends in the configuration error [e]: [after_transit] is
    what [_transit] gives and [after] what [transit] gives from the state
    [s]. *)
Definition configuration_error {A B} (e : exc_arg)
    (after_transit : outcome A * state) (after : outcome B * state)
    (s : state) : Prop :=
  after_transit.1 = Raise Exception e
  /\ after.1 = Raise Exception e
  /\ gets (trace after.2) = gets (trace s)
  /\ self after.2 = self s.

(** *** Inputs of the examples *)

(** A runtime for the examples: every request is answered, by nothing. *)
Definition answered : string -> outcome unit := fun _ => Ok tt.
Definition no_json : unit -> outcome value := fun _ => Ok VNone.
Definition no_str : value -> outcome string := fun _ => Ok "".

(** The moment the first call of the examples is made. *)
Definition t0 : float := Float.of_Z 1415000000.

(** A client that has made 999 calls, the last one a second ago. *)
Definition at_ceiling : state :=
  {| self := {| key := VStr "123";
                base_url := "https://developer.citymapper.com/";
                limit := 1000;
                api_calls := 999;
                rate := 10;
                last_call_time := t0 |};
     heap := [];
     clock := Float.add t0 (Float.of_Z 1);
     trace := [] |}.

(** A first call, a second call one second after the first was made, a
    third call ten seconds after the second. *)
Definition three_calls : list (float * string) :=
  [(Float.of_Z 0, "a"); (Float.of_Z 1, "b"); (Float.of_Z 10, "c")].

(** The parameters of the URL scenario, and a client with the key ['123']
    that holds them. *)
Definition traveltime_params : dict :=
  {[ "node" := node_traveltime;
     "startcoord" := VStr "1,2";
     "endcoord" := VStr "1,3" ]}.

Definition asking : state :=
  {| self := __init__ (VStr "123") 1000;
     heap := [traveltime_params];
     clock := t0;
     trace := [] |}.

(** *** The dispatcher, step by step *)

(** The test [delta_T > 60/self.rate] of a client [c] that reads the clock
    at [now]. *)
Definition late (c : citymapper) (now : float) : bool :=
  Float.ltb (Float.of_Z (60 / rate c)) (Float.sub now (last_call_time c)).

(** How long the call is then held back. *)
Definition held (asyncio : bool) (c : citymapper) (now : float) : float :=
  if asyncio then Float.of_Z 1 else Float.sub now (last_call_time c).

Definition pause (asyncio : bool) (c : citymapper) (now : float) : list event :=
  if late c now
  then [if asyncio then AsyncioSleep 1
        else Sleep (Float.sub now (last_call_time c))]
  else [].

(** The reading of the clock when the call goes out. *)
Definition resumed (asyncio : bool) (c : citymapper) (now : float) : float :=
  if late c now then Float.add now (held asyncio c now) else now.

(** The state a dispatch of [query] that is not refused leaves behind. *)
Definition dispatched (asyncio : bool) (query : string) (s : state) : state :=
  {| self := called_at (resumed asyncio (self s) (clock s)) (counted (self s));
     heap := heap s;
     clock := resumed asyncio (self s) (clock s);
     trace := trace s ++ pause asyncio (self s) (clock s) ++ [Get query] |}.

(** The state a caller's dispatches leave behind when none is refused. *)
Fixpoint dispatched_all (asyncio : bool) (calls : list (float * string))
    (s : state) : state :=
  match calls with
  | [] => s
  | (d, query) :: calls' =>
      dispatched_all asyncio calls' (dispatched asyncio query (elapse d s).2)
  end.

(** What a dispatch never changes of a client. *)
Definition settings (c : citymapper) : value * string * Z * Z :=
  (key c, base_url c, limit c, rate c).

(** *** The transit request, step by step *)

(** The dict of a transit request without a time. *)
Definition plain_params (o d : string) : dict :=
  <["endcoord" := VStr d]>
    (<["startcoord" := VStr o]> {[ "node" := node_traveltime ]}).

(** The warning of [_transit], where it is given. *)
Definition warned (time : value) : list event :=
  if truthy time then [Warn iso_8601] else [].

(** The dict behind [params] when [_make_url] has done its work on [d]. *)
Definition keyed (k : value) (d : dict) : dict :=
  <["key" := k]> (delete "node" d).

(** A dict all of whose values are strs. *)
Definition all_str (d : dict) : Prop :=
  forall k v, d !! k = Some v -> is_str v.

(** A client with 998 calls behind it: one more goes through. *)
Definition near_ceiling : state :=
  {| self := {| key := VStr "123";
                base_url := "https://developer.citymapper.com/";
                limit := 1000;
                api_calls := 998;
                rate := 10;
                last_call_time := t0 |};
     heap := [];
     clock := Float.add t0 (Float.of_Z 1);
     trace := [] |}.

(** A dict without ['node']. *)
Definition nodeless : state :=
  {| self := __init__ (VStr "123") 1000;
     heap := [ {[ "startcoord" := VStr "1,2" ]} ];
     clock := t0;
     trace := [] |}.

(** The checks on [time_type] let the request through. *)
Definition time_ok (time time_type : value) : bool :=
  negb (truthy time) || in_singleton time_type "arrival".

(** The dict of a transit request when those checks are done. *)
Definition checked_params (time time_type : value) : dict :=
  if truthy time
  then <["time_type" := time_type]>
         (<["time" := time]> {[ "node" := node_traveltime ]})
  else {[ "node" := node_traveltime ]}.

(** A call that ends in the exception [c] with the argument [m] before it
    reaches the network: [after_transit] is what [_transit] gives and
    [after] what [transit] gives from the state [s]. *)
Definition ends_early {A B} (c : exc_class) (m : exc_arg)
    (after_transit : outcome A * state) (after : outcome B * state)
    (s : state) : Prop :=
  after_transit.1 = Raise c m
  /\ after.1 = Raise c m
  /\ gets (trace after.2) = gets (trace s)
  /\ self after.2 = self s.

(** The entries of the URL of a transit request without a time. *)
Definition plain_entries (iteritems : dict -> list (string * value))
    (k o d : string) : list string :=
  map render (iteritems (keyed (VStr k) (plain_params o d))).

(** *** The text of a coordinate *)


Fixpoint every (P : ascii -> bool) (s : string) : bool :=
  match s with
  | EmptyString => true
  | String a r => P a && every P r
  end.

Definition digit (a : ascii) : bool :=
  match a with
  | "0" | "1" | "2" | "3" | "4" | "5" | "6" | "7" | "8" | "9" => true
  | _ => false
  end%char.

(** A digit or a minus sign; and what else the text of a coordinate can be
    made of: the point and the letters of [nan] and [inf]. *)
Definition signed_digit (a : ascii) : bool :=
  digit a || Ascii.eqb a "-".


(** The float of mantissa [m] and exponent [e] is the whole number [k]. *)
Definition whole (m : positive) (e : Z) (k : Z) : Prop :=
  (0 <= e /\ Z.pos m * 2 ^ e = k) \/ (e < 0 /\ Z.pos m = k * 2 ^ (- e)).

(** An integer as Python writes it. *)
Definition int_text (z : Z) : string :=
  (if z <? 0 then "-" else "") ++ decimal (Z.abs z).

(** *** The text of a URL *)

(** How often [sub] occurs in [s]: at how many positions of [s] a copy of
    [sub] begins. *)
Fixpoint count_sub (sub s : string) : nat :=
  ((if String.prefix sub s then 1 else 0)
   + match s with
     | EmptyString => 0
     | String _ r => count_sub sub r
     end)%nat.

(** The entries [l] with an ampersand between each two of them, written
    out without [join]. *)
Definition amp_joined (l : list string) : string :=
  match l with
  | [] => ""
  | e :: r => e ++ fold_right (fun x acc => "&" ++ x ++ acc) "" r
  end.

(** The URLs of the travel time scenario: the three entries in each of
    their six orders. *)
Definition traveltime_urls : list string :=
  [ "https://developer.citymapper.com/api/1/traveltime/?key=123&startcoord=1,2&endcoord=1,3";
    "https://developer.citymapper.com/api/1/traveltime/?key=123&endcoord=1,3&startcoord=1,2";
    "https://developer.citymapper.com/api/1/traveltime/?startcoord=1,2&key=123&endcoord=1,3";
    "https://developer.citymapper.com/api/1/traveltime/?startcoord=1,2&endcoord=1,3&key=123";
    "https://developer.citymapper.com/api/1/traveltime/?endcoord=1,3&key=123&startcoord=1,2";
    "https://developer.citymapper.com/api/1/traveltime/?endcoord=1,3&startcoord=1,2&key=123" ].

(** * Part III: the properties *)

(** ** Strings *)

Lemma append_nil (t : string) : "" ++ t = t.
Proof. reflexivity. Qed.

Lemma append_cons (a : ascii) (s t : string) :
  String a s ++ t = String a (s ++ t).
Proof. reflexivity. Qed.

Lemma append_empty_r (s : string) : s ++ "" = s.
Proof.
  induction s as [|a s IH]; [reflexivity|].
  now rewrite append_cons, IH.
Qed.

Lemma append_assoc (s t u : string) : (s ++ t) ++ u = s ++ t ++ u.
Proof.
  induction s as [|a s IH]; [reflexivity|].
  now rewrite !append_cons, IH.
Qed.

Lemma prefix_append (s t : string) : String.prefix s (s ++ t) = true.
Proof.
  induction s as [|a s IH].
  - now destruct t.
  - rewrite append_cons. simpl.
    destruct (ascii_dec a a) as [_|Hne]; [exact IH | now destruct Hne].
Qed.

(** [rstrip] removes a run of [c] at the end and nothing else. *)
Lemma rstrip_run (c : ascii) (s : string) :
  exists n, s = rstrip c s ++ run c n.
Proof.
  induction s as [|a r [n IH]]; simpl.
  - now exists O.
  - destruct (rstrip c r) as [|b r'] eqn:Hr.
    + rewrite append_nil in IH. destruct (Ascii.eqb_spec a c) as [->|_].
      * exists (S n). rewrite append_nil. simpl. now rewrite IH.
      * exists n. rewrite append_cons, append_nil. now rewrite IH.
    + exists n. rewrite append_cons. now rewrite IH at 1.
Qed.

(** What [rstrip] leaves does not end in [c]. *)
Lemma rstrip_last (c : ascii) (s : string) : last_char (rstrip c s) <> Some c.
Proof.
  induction s as [|a r IH]; simpl; [discriminate|].
  destruct (rstrip c r) as [|b r'] eqn:Hr.
  - destruct (Ascii.eqb_spec a c) as [->|Hne]; simpl; congruence.
  - exact IH.
Qed.

(** ** The normalizer *)

Lemma float2str_coordinate (v : value) :
  coordinate v = true -> exists s, float2str v = Ok s.
Proof.
  unfold float2str, format_spec_f.
  destruct v as [|b|z|x|s|s|l|l|l|d]; simpl; try discriminate; intros H.
  - destruct (Float.of_Z (if b then 1 else 0)) eqn:E; eauto.
    now destruct b.
  - destruct (Float.of_Z z); eauto. discriminate.
  - eauto.
Qed.



Lemma normalize_position_dict (d : dict) (a b : value) :
  d !! "lat" = Some a -> d !! "lng" = Some b ->
  normalize_position (VDict d)
  = (lat ← float2str a; lng ← float2str b; Ok (lat ++ "," ++ lng)).
Proof.
  intros Ha Hb. unfold normalize_position, getkey. rewrite Ha, Hb.
  rewrite !bool_decide_eq_true_2 by eauto. simpl.
  destruct (float2str a); simpl; [|reflexivity].
  destruct (float2str b); reflexivity.
Qed.

Lemma normalize_position_pair (a b : value) (rest : list value) :
  normalize_position (VList (a :: b :: rest))
  = (lat ← float2str a; lng ← float2str b; Ok (lat ++ "," ++ lng))
  /\ normalize_position (VTuple (a :: b :: rest))
    = (lat ← float2str a; lng ← float2str b; Ok (lat ++ "," ++ lng)).
Proof.
  unfold normalize_position; simpl.
  destruct (float2str a); simpl; [|split; reflexivity].
  destruct (float2str b); split; reflexivity.
Qed.

Lemma normalize_position_components (x : value) (a b : value) :
  components x = Some (a, b) ->
  normalize_position x
  = (lat ← float2str a; lng ← float2str b; Ok (lat ++ "," ++ lng)).
Proof.
  destruct x as [| | | | | |l|l| |d]; simpl; try discriminate.
  - destruct l as [|a' [|b' rest]]; try discriminate.
    intros [= -> ->]. apply normalize_position_pair.
  - destruct l as [|a' [|b' rest]]; try discriminate.
    intros [= -> ->]. apply normalize_position_pair.
  - destruct (d !! "lat") as [a'|] eqn:Ha; simpl; [|discriminate].
    destruct (d !! "lng") as [b'|] eqn:Hb; simpl; [|discriminate].
    intros [= -> ->]. now apply normalize_position_dict.
Qed.


(** C6. A keyed position [{'lat': a, 'lng': b}] and the ordered pair
    [[a, b]] (or [(a, b)]) of the same values are normalized to the same
    result, and for coordinates [a] and [b] that result is a string.  The
    normalizer is a function of its argument alone: it reads no state and
    leaves none behind. *)
Theorem normalize_position_keyed_pair (d : dict) (a b : value) :
  d !! "lat" = Some a -> d !! "lng" = Some b ->
  normalize_position (VDict d) = normalize_position (VList [a; b])
  /\ normalize_position (VDict d) = normalize_position (VTuple [a; b])
  /\ (coordinate a = true -> coordinate b = true ->
      exists lat lng,
        float2str a = Ok lat /\ float2str b = Ok lng
        /\ normalize_position (VDict d) = Ok (lat ++ "," ++ lng)
        /\ normalize_position (VList [a; b]) = Ok (lat ++ "," ++ lng)).
Proof.
  intros Ha Hb.
  rewrite (normalize_position_dict d a b Ha Hb).
  destruct (normalize_position_pair a b []) as [-> ->].
  repeat split.
  intros Ca Cb.
  destruct (float2str_coordinate a Ca) as [lat Hlat].
  destruct (float2str_coordinate b Cb) as [lng Hlng].
  exists lat, lng. rewrite Hlat, Hlng. auto.
Qed.

Lemma normalize_position_keyed_pair_witness :
  normalize_position (VDict {[ "lat" := VFloat (Float.literal 515 1);
                               "lng" := VInt (-2) ]})
  = normalize_position (VList [VFloat (Float.literal 515 1); VInt (-2)])
  /\ normalize_position (VList [VFloat (Float.literal 515 1); VInt (-2)])
     = Ok "51.5,-2".
Proof.
  split.
  - refine (proj1 (normalize_position_keyed_pair _ _ _ _ _));
      vm_compute; reflexivity.
  - vm_compute; reflexivity.
Defined.

(** The float the literal [123.01] denotes. *)
Example literal_123_01 :
  Float.literal 12301 2 = S754_finite false 8656059221294449 (-46).
Proof. reflexivity. Qed.

(** C7. The pair [(123, 124)], as a tuple or under the keys ['lat'] and
    ['lng'], is normalized to ["123,124"], and [[123.01, 124.00]] to
    ["123.01,124"].  In general the text [s] of a coordinate is its ['f']
    rendering [t] without the zeros at its end and then without the point
    at its end: [t] is [s], a run of points and a run of zeros; [s] does
    not end in a point, and it ends in a zero only if a point was removed
    after it. *)
Theorem normalize_position_strips :
  normalize_position (VTuple [VInt 123; VInt 124]) = Ok "123,124"
  /\ normalize_position (VDict {[ "lat" := VInt 123; "lng" := VInt 124 ]})
     = Ok "123,124"
  /\ normalize_position
       (VList [VFloat (Float.literal 12301 2); VFloat (Float.literal 12400 2)])
     = Ok "123.01,124"
  /\ forall (x : value) (s : string),
      float2str x = Ok s ->
      exists t i j,
        format_spec_f x = Ok t
        /\ t = s ++ run "." i ++ run "0" j
        /\ last_char s <> Some "."%char
        /\ (i = O -> last_char s <> Some "0"%char).
Proof.
  split; [vm_compute; reflexivity|].
  split; [vm_compute; reflexivity|].
  split; [vm_compute; reflexivity|].
  intros x s H. unfold float2str in H.
  destruct (format_spec_f x) as [t|c m]; simpl in H; [|discriminate].
  injection H as <-.
  destruct (rstrip_run "0" t) as [j Hj].
  destruct (rstrip_run "." (rstrip "0" t)) as [i Hi].
  exists t, i, j. repeat split.
  - rewrite <- append_assoc, <- Hi. exact Hj.
  - apply rstrip_last.
  - intros ->. simpl in Hi. rewrite append_empty_r in Hi.
    rewrite <- Hi. apply rstrip_last.
Qed.

Lemma normalize_position_strips_witness :
  float2str (VFloat (Float.literal 12400 2)) = Ok "124"
  /\ exists t i j,
      format_spec_f (VFloat (Float.literal 12400 2)) = Ok t
      /\ t = "124" ++ run "." i ++ run "0" j
      /\ last_char "124" <> Some "."%char
      /\ (i = O -> last_char "124" <> Some "0"%char).
Proof.
  assert (H : float2str (VFloat (Float.literal 12400 2)) = Ok "124")
    by (vm_compute; reflexivity).
  split; [exact H|].
  exact (proj2 (proj2 (proj2 normalize_position_strips)) _ _ H).
Defined.

(** C8. A plain string is never taken for a sequence of characters: whatever
    its content, [islist] answers [False] and the normalizer raises
    [TypeError].  The same holds of a unicode string.  That is all that
    happens: the normalizer has no access to the client or to the
    network. *)
Theorem normalize_position_rejects_str (s : string) :
  islist (VStr s) = false
  /\ normalize_position (VStr s) = Raise TypeError (Unable (VStr s))
  /\ islist (VUnicode s) = false
  /\ normalize_position (VUnicode s) = Raise TypeError (Unable (VUnicode s)).
Proof. repeat split. Qed.




(** What the code does with a sequence that is too short is no part of the
    amended C9: the index is out of range. *)
Example normalize_position_short :
  normalize_position (VList []) = Raise IndexError (Text "list index out of range")
  /\ normalize_position (VList [VInt 1])
     = Raise IndexError (Text "list index out of range")
  /\ normalize_position (VTuple [VInt 1])
     = Raise IndexError (Text "tuple index out of range").
Proof. repeat split. Qed.

(** ** The monad *)

Lemma bind_Ok {A B} (c : M A) (f : A -> M B) (s s' : state) (a : A) :
  c s = (Ok a, s') -> (c ≫= f) s = f a s'.
Proof. intros H. unfold mbind, M_bind. now rewrite H. Qed.

Lemma bind_Raise {A B} (c : M A) (f : A -> M B) (s s' : state) e m :
  c s = (Raise e m, s') -> (c ≫= f) s = (Raise e m, s').
Proof. intros H. unfold mbind, M_bind. now rewrite H. Qed.

Ltac run_request :=
  unfold _request, mbind, M_bind, get_self, set_self, raise, lift,
    time_time, time_sleep, asyncio_sleep, emit, elapse, mret, M_ret; simpl.

(** ** The dispatcher *)

Section Dispatch.

Variable asyncio : bool.
Variable response : Type.
Variable requests_get : string -> outcome response.

Abbreviation _request' := (_request asyncio response requests_get).
Abbreviation dispatch_all' := (dispatch_all asyncio response requests_get).

(** The counter goes up by one whatever happens next, and the ceiling
    stays. *)
Lemma _request_counts (query : string) (s : state) :
  api_calls (self (_request' query s).2) = api_calls (self s) + 1
  /\ limit (self (_request' query s).2) = limit (self s).
Proof.
  run_request.
  destruct (limit (self s) <=? api_calls (self s) + 1); simpl; [auto|].
  destruct (rate (self s) =? 0); simpl; [auto|].
  destruct (Float.ltb _ _); simpl; [destruct asyncio; simpl|];
    destruct (requests_get query); simpl; auto.
Qed.

(** At the ceiling the dispatcher raises and does nothing but count. *)
Lemma _request_refuses (query : string) (s : state) :
  limit (self s) <= api_calls (self s) + 1 ->
  _request' query s
  = (Raise StopIteration reached, with_self (counted (self s)) s).
Proof.
  intros H. apply Z.leb_le in H. run_request. rewrite H. reflexivity.
Qed.

(** Below the ceiling the network call is made and its answer returned;
    the call is held back exactly when more than [60/rate] seconds have
    gone by since the last one. *)
Lemma _request_proceeds (query : string) (s : state) :
  api_calls (self s) + 1 < limit (self s) ->
  rate (self s) <> 0 ->
  (_request' query s).1 = requests_get query
  /\ gets (trace (_request' query s).2) = (gets (trace s) ++ [query])%list
  /\ rate (self (_request' query s).2) = rate (self s)
  /\ pauses (trace (_request' query s).2)
     = (pauses (trace s)
        ++ let delta_T := Float.sub (clock s) (last_call_time (self s)) in
           if Float.ltb (Float.of_Z (60 / rate (self s))) delta_T
           then [if asyncio then AsyncioSleep 1 else Sleep delta_T]
           else [])%list.
Proof.
  intros Hlt Hrate.
  apply Z.leb_gt in Hlt. apply Z.eqb_neq in Hrate.
  run_request. rewrite Hlt; simpl. rewrite Hrate; simpl.
  unfold gets, pauses.
  destruct (Float.ltb _ _); simpl; [destruct asyncio; simpl|];
    destruct (requests_get query); simpl;
    rewrite ?omap_app, ?List.filter_app; simpl;
    rewrite <- ?app_assoc, ?app_nil_r; auto.
Qed.

Lemma dispatch_all_cons d query calls (s : state) :
  dispatch_all' ((d, query) :: calls) s
  = let r := _request' query (elapse d s).2 in
    (r.1 :: (dispatch_all' calls r.2).1, (dispatch_all' calls r.2).2).
Proof. reflexivity. Qed.

Lemma _request_below (query : string) (s : state) :
  api_calls (self s) + 1 < limit (self s) ->
  rate (self s) <> 0 ->
  _request' query s = (requests_get query, dispatched asyncio query s).
Proof.
  intros Hlt Hrate.
  apply Z.leb_gt in Hlt. apply Z.eqb_neq in Hrate.
  unfold dispatched, pause, resumed, held, late.
  run_request. rewrite Hlt; simpl. rewrite Hrate; simpl.
  destruct (Float.ltb _ _); simpl; [destruct asyncio; simpl|];
    unfold with_trace, with_clock, with_self; simpl;
    rewrite <- ?app_assoc; reflexivity.
Qed.

(** A caller's dispatches below the ceiling, one after the other. *)
Lemma dispatch_all_below (calls : list (float * string)) (s : state) :
  api_calls (self s) + Z.of_nat (length calls) < limit (self s) ->
  rate (self s) <> 0 ->
  (dispatch_all' calls s).2 = dispatched_all asyncio calls s.
Proof.
  revert s. induction calls as [|[d query] calls IH]; intros s Hlt Hrate.
  - reflexivity.
  - rewrite dispatch_all_cons. cbv zeta.
    change (length ((d, query) :: calls)) with (S (length calls)) in Hlt.
    rewrite (_request_below query (elapse d s).2)
      by (try exact Hrate; change (self (elapse d s).2) with (self s); lia).
    cbn [fst snd]. rewrite IH; [reflexivity | | exact Hrate].
    change (api_calls (self s) + 1 + Z.of_nat (length calls) < limit (self s)).
    lia.
Qed.

Lemma dispatch_all_refuses (calls : list (float * string)) (s : state) :
  limit (self s) <= api_calls (self s) + 1 ->
  Forall (fun r => r = Raise StopIteration reached) (dispatch_all' calls s).1
  /\ trace (dispatch_all' calls s).2 = trace s
  /\ heap (dispatch_all' calls s).2 = heap s.
Proof.
  revert s. induction calls as [|[d query] calls IH]; intros s H.
  - simpl. auto.
  - rewrite dispatch_all_cons.
    set (s1 := (elapse d s).2).
    assert (H1 : limit (self s1) <= api_calls (self s1) + 1) by exact H.
    rewrite (_request_refuses query s1 H1). cbv zeta.
    destruct (IH (with_self (counted (self s1)) s1)) as (IH1 & IH2 & IH3).
    { simpl. lia. }
    split; [constructor; auto|].
    split; [exact IH2 | exact IH3].
Qed.

(** Below the ceiling every dispatch of a caller goes through. *)
Lemma dispatch_all_proceeds (calls : list (float * string)) (s : state) :
  api_calls (self s) + Z.of_nat (length calls) < limit (self s) ->
  rate (self s) <> 0 ->
  (dispatch_all' calls s).1 = map (fun c => requests_get c.2) calls
  /\ gets (trace (dispatch_all' calls s).2)
     = (gets (trace s) ++ map snd calls)%list
  /\ api_calls (self (dispatch_all' calls s).2)
     = api_calls (self s) + Z.of_nat (length calls)
  /\ limit (self (dispatch_all' calls s).2) = limit (self s).
Proof.
  revert s. induction calls as [|[d query] calls IH]; intros s Hlt Hrate.
  - simpl. rewrite app_nil_r. repeat split. lia.
  - rewrite dispatch_all_cons. cbv zeta.
    set (s1 := (elapse d s).2).
    change (length ((d, query) :: calls)) with (S (length calls)) in *.
    destruct (_request_proceeds query s1) as (Hr & Hg & Hrt & _);
      [change (self s1) with (self s); lia | exact Hrate |].
    destruct (_request_counts query s1) as [Hc Hl].
    destruct (IH (_request' query s1).2) as (IH1 & IH2 & IH3 & IH4).
    { rewrite Hc, Hl. change (self s1) with (self s). lia. }
    { rewrite Hrt. exact Hrate. }
    simpl. rewrite Hr, IH1, IH2, IH3, IH4, Hg, Hc, Hl.
    change (trace s1) with (trace s). change (self s1) with (self s).
    rewrite <- app_assoc. repeat split. lia.
Qed.

(** A client as the constructor makes it is refused its thousandth call,
    whatever ceiling it was given, and none before. *)
Lemma thousandth_call (k : value) (ceiling : Z) (t : float)
    (calls : list (float * string)) (query : string) :
  length calls = 999%nat ->
  let r := dispatch_all' calls (start (__init__ k ceiling) t) in
  r.1 = map (fun c => requests_get c.2) calls
  /\ (_request' query r.2).1 = Raise StopIteration reached.
Proof.
  intros Hlen r.
  destruct (dispatch_all_proceeds calls (start (__init__ k ceiling) t))
    as (H1 & _ & H3 & H4); [simpl; lia | discriminate |].
  split; [exact H1|].
  rewrite _request_refuses; [reflexivity|].
  fold r in H3, H4. rewrite H3, H4. simpl. lia.
Qed.

(** C3. Every dispatch counts itself first.  When the count so reached is
    at or above the ceiling the dispatch raises [StopIteration] and nothing
    else has happened: no event (so no network call), no time spent, no
    dict touched.  From then on every later dispatch, whenever it comes,
    is refused in the same way: the counter only grows and the ceiling
    stays. *)
Theorem _request_limit_is_terminal (query : string) (s : state) :
  api_calls (self (_request' query s).2) = api_calls (self s) + 1
  /\ limit (self (_request' query s).2) = limit (self s)
  /\ (limit (self s) <= api_calls (self s) + 1 ->
      (_request' query s).1 = Raise StopIteration reached
      /\ trace (_request' query s).2 = trace s
      /\ clock (_request' query s).2 = clock s
      /\ heap (_request' query s).2 = heap s
      /\ forall calls,
          let later := dispatch_all' calls (_request' query s).2 in
          Forall (fun r => r = Raise StopIteration reached) later.1
          /\ trace later.2 = trace s).
Proof.
  destruct (_request_counts query s) as [Hc Hl].
  split; [exact Hc|]. split; [exact Hl|].
  intros H. rewrite (_request_refuses query s H). simpl.
  repeat split; try reflexivity;
    apply (dispatch_all_refuses calls (with_self (counted (self s)) s));
    simpl; lia.
Qed.

End Dispatch.

Lemma _request_limit_is_terminal_witness :
  limit (self at_ceiling) <= api_calls (self at_ceiling) + 1
  /\ (_request false unit answered "q" at_ceiling).1
     = Raise StopIteration reached
  /\ trace (_request false unit answered "q" at_ceiling).2 = [].
Proof.
  assert (H : limit (self at_ceiling) <= api_calls (self at_ceiling) + 1)
    by (simpl; lia).
  split; [exact H|].
  pose proof (proj2 (proj2 (_request_limit_is_terminal
                              false unit answered "q" at_ceiling)) H)
    as (Hr & Ht & _).
  split; [exact Hr | exact Ht].
Defined.

(** C1 does not hold of the code.  The constructor takes a ceiling and
    stores 1000 whatever it is given, so a client built with the ceiling 2
    makes its second and its third call like any other: each of the three
    dispatches below performs its network call and returns its answer. *)
Theorem ceiling_argument_is_ignored
    (k : value) (ceiling : Z) (asyncio : bool) (response : Type)
    (requests_get : string -> outcome response)
    (t d1 d2 d3 : float) (q1 q2 q3 : string) :
  limit (__init__ k ceiling) = 1000
  /\ let r := dispatch_all asyncio response requests_get
                [(d1, q1); (d2, q2); (d3, q3)] (start (__init__ k 2) t) in
     r.1 = [requests_get q1; requests_get q2; requests_get q3]
     /\ gets (trace r.2) = [q1; q2; q3].
Proof.
  split; [reflexivity|].
  destruct (dispatch_all_proceeds asyncio response requests_get
              [(d1, q1); (d2, q2); (d3, q3)] (start (__init__ k 2) t))
    as (H1 & H2 & _); [simpl; lia | discriminate |].
  split; [exact H1 | exact H2].
Qed.

(** C2 does not hold of the code: the test of the dispatcher is the wrong
    way round.  A client makes its first call at [t0], a second call one
    second after the first was made and a third call ten seconds after the
    second.  One second is less than [60/rate = 6] seconds and the second
    call is made at once; ten seconds is more and the third call is held
    back, for the ten seconds already spent or, with asyncio, for one
    second.  (The first call, made [t0] seconds after the initial
    [last_call_time = 0], is held back for [t0] seconds.)  Two calls in a
    row go out at the same reading of the clock. *)
Theorem _request_sleeps_when_late
    (response : Type) (requests_get : string -> outcome response) :
  60 / rate (__init__ (VStr "123") 1000) = 6
  /\ trace (dispatch_all false response requests_get three_calls
              (start (__init__ (VStr "123") 1000) t0)).2
     = [Sleep t0; Get "a"; Get "b"; Sleep (Float.of_Z 10); Get "c"]
  /\ trace (dispatch_all true response requests_get three_calls
              (start (__init__ (VStr "123") 1000) t0)).2
     = [AsyncioSleep 1; Get "a"; Get "b"; AsyncioSleep 1; Get "c"]
  /\ let s1 := (dispatch_all false response requests_get
                  [(Float.of_Z 0, "a")]
                  (start (__init__ (VStr "123") 1000) t0)).2 in
     let s2 := (dispatch_all false response requests_get
                  [(Float.of_Z 0, "b")] s1).2 in
     trace s2 = (trace s1 ++ [Get "b"])%list
     /\ last_call_time (self s2) = last_call_time (self s1).
Proof.
  split; [reflexivity|].
  set (s0 := start (__init__ (VStr "123") 1000) t0).
  assert (H0 : rate (self s0) <> 0) by discriminate.
  assert (H3 : api_calls (self s0) + Z.of_nat (length three_calls)
               < limit (self s0)) by reflexivity.
  assert (H1 : api_calls (self s0) + Z.of_nat (length [(Float.of_Z 0, "a")])
               < limit (self s0)) by reflexivity.
  rewrite (dispatch_all_below false response requests_get three_calls s0 H3 H0).
  rewrite (dispatch_all_below true response requests_get three_calls s0 H3 H0).
  split; [vm_compute; reflexivity|].
  split; [vm_compute; reflexivity|].
  cbv zeta.
  rewrite (dispatch_all_below false response requests_get
             [(Float.of_Z 0, "a")] s0 H1 H0).
  rewrite (dispatch_all_below false response requests_get
             [(Float.of_Z 0, "b")] _); [| reflexivity | discriminate].
  split; vm_compute; reflexivity.
Qed.

(** ** The parameter dicts *)

Lemma new_dict_at (s : state) :
  new_dict s = (Ok (length (heap s)), with_heap (heap s ++ [∅]) s).
Proof. reflexivity. Qed.

Lemma setitem_at (p : ref) (k : string) (v : value) (d : dict) (s : state) :
  heap s !! p = Some d ->
  setitem p k v s = (Ok tt, with_heap (<[p := <[k := v]> d]> (heap s)) s).
Proof. intros H. unfold setitem, mbind, M_bind, read. now rewrite H. Qed.

Lemma setitem_last (h : list dict) (d : dict) k v (s : state) :
  heap s = (h ++ [d])%list ->
  setitem (length h) k v s = (Ok tt, with_heap (h ++ [<[k := v]> d]) s).
Proof.
  intros H.
  rewrite (setitem_at (length h) k v d s)
    by (rewrite H; now apply list_lookup_middle).
  rewrite H, insert_app_r_alt, Nat.sub_diag by reflexivity. reflexivity.
Qed.

Lemma pop_at (p : ref) (k : string) (v : value) (d : dict) (s : state) :
  heap s !! p = Some d -> d !! k = Some v ->
  pop p k s = (Ok v, with_heap (<[p := delete k d]> (heap s)) s).
Proof.
  intros H Hk. unfold pop, mbind, M_bind, read. rewrite H, Hk. reflexivity.
Qed.

(** Without the key there is nothing to pop, and nothing is changed. *)
Lemma pop_missing (p : ref) (k : string) (d : dict) (s : state) :
  heap s !! p = Some d -> d !! k = None ->
  pop p k s = (Raise KeyError (Key k), s).
Proof.
  intros H Hk. unfold pop, mbind, M_bind, read. rewrite H, Hk. reflexivity.
Qed.

(** ** The URL builder *)

(** [join] puts the separator between each two entries and nowhere else. *)
Lemma join_amp_joined (l : list string) : join "&" l = amp_joined l.
Proof.
  destruct l as [|e r]; [reflexivity|].
  revert e. induction r as [|x r IH]; intros e.
  - simpl. now rewrite append_empty_r.
  - change (join "&" (e :: x :: r)) with (e ++ "&" ++ join "&" (x :: r)).
    rewrite IH. reflexivity.
Qed.

(** The six orders of three things. *)
Lemma Permutation_three {A} (l : list A) (a b c : A) :
  l ≡ₚ [a; b; c] ->
  l = [a; b; c] \/ l = [a; c; b] \/ l = [b; a; c]
  \/ l = [b; c; a] \/ l = [c; a; b] \/ l = [c; b; a].
Proof.
  intros H.
  destruct (Permutation_vs_cons_inv H) as (l1 & l2 & ->).
  apply Permutation_sym, Permutation_cons_app_inv in H.
  apply Permutation_length_2_inv in H.
  destruct l1 as [|x [|y [|z l1]]]; destruct H as [H | H];
    simplify_eq/=; auto 10.
Qed.

Section Builder.

Variable py_str : value -> outcome string.
Variable iteritems : dict -> list (string * value).
Hypothesis iteritems_perm : forall d, iteritems d ≡ₚ map_to_list d.

Abbreviation _make_url' := (_make_url py_str iteritems).

(** [_make_url] in one step: the dict behind [params] loses ['node'] and
    gains ['key'], whether or not the text can then be put together. *)
Lemma _make_url_at (params : ref) (d : dict) (node : value) (s : state) :
  heap s !! params = Some d -> d !! "node" = Some node ->
  let d' := <["key" := key (self s)]> (delete "node" d) in
  _make_url' params s
  = (url_of py_str iteritems (self s) node d',
     with_heap (<[params := d']> (heap s)) s).
Proof.
  intros H Hnode d'.
  assert (Hlt : (params < length (heap s))%nat) by eauto using lookup_lt_Some.
  unfold _make_url.
  rewrite (bind_Ok _ _ _ _ _ (pop_at params "node" node d s H Hnode)).
  unfold get_self at 1. unfold mbind at 1, M_bind at 1.
  erewrite bind_Ok; cycle 1.
  { apply setitem_at. simpl. now apply list_lookup_insert_eq. }
  simpl. rewrite list_insert_insert_eq. fold d'.
  unfold read at 1. unfold mbind at 1, M_bind at 1. simpl.
  rewrite list_lookup_insert_eq by exact Hlt.
  unfold url_of, lift, mbind, M_bind, outcome_bind, mret, M_ret.
  destruct (comprehension _ _); [|reflexivity].
  destruct (format_field py_str node); reflexivity.
Qed.

Lemma comprehension_render (l : list (string * value)) :
  Forall (fun kv => is_str kv.2) l ->
  comprehension (format_item py_str) l = Ok (map render l).
Proof.
  induction 1 as [|[k v] l Hv _ IH]; [reflexivity|].
  destruct v; try contradiction.
  change (comprehension (format_item py_str) ((k, VStr s) :: l))
    with (bs ← comprehension (format_item py_str) l;
          Ok (render (k, VStr s) :: bs)).
  rewrite IH. reflexivity.
Qed.

(** C10. [_make_url] works on the caller's dict, not on a copy: after the
    call the dict the caller passed has no ['node'], has ['key'] bound to
    the client's key, and has all its other items as before.  Every other
    dict, the client and the trace are as before. *)
Theorem _make_url_mutates_params
    (params : ref) (d : dict) (node : value) (s : state) :
  heap s !! params = Some d -> d !! "node" = Some node ->
  exists d',
    heap (_make_url' params s).2 !! params = Some d'
    /\ d' !! "node" = None
    /\ d' !! "key" = Some (key (self s))
    /\ (forall k, k <> "node" -> k <> "key" -> d' !! k = d !! k)
    /\ (forall q, q <> params ->
                  heap (_make_url' params s).2 !! q = heap s !! q)
    /\ self (_make_url' params s).2 = self s
    /\ trace (_make_url' params s).2 = trace s.
Proof.
  intros H Hnode. rewrite (_make_url_at params d node s H Hnode). simpl.
  exists (<["key" := key (self s)]> (delete "node" d)).
  split; [apply list_lookup_insert_eq; eauto using lookup_lt_Some|].
  split; [rewrite lookup_insert_ne by discriminate; apply lookup_delete_eq|].
  split; [apply lookup_insert_eq|].
  split.
  - intros k Hn Hk.
    rewrite lookup_insert_ne by congruence.
    now rewrite lookup_delete_ne by congruence.
  - split; [|split; reflexivity].
    intros q Hq. now rewrite list_lookup_insert_ne by congruence.
Qed.

(** C5. For the parameters [{'node': 'api/1/traveltime/?',
    'startcoord': '1,2', 'endcoord': '1,3'}] and a client with the key
    ['123'], the URL is the base, the node, and then, joined by [&] in the
    order the dict yields them, the three entries [key=123],
    [startcoord=1,2] and [endcoord=1,3], each once and nothing else.  As a
    text it is one of the six URLs that have the three entries in some
    order behind the node; it holds [key=123], [startcoord=1,2] and
    [endcoord=1,3] once each, two ampersands, and no [node=].  The dict is
    left without its ['node'] and with the ['key']. *)
Theorem _make_url_traveltime (params : ref) (s : state) :
  key (self s) = VStr "123" ->
  base_url (self s) = "https://developer.citymapper.com/" ->
  heap s !! params = Some traveltime_params ->
  exists url entries,
    (_make_url' params s).1 = Ok url
    /\ url = "https://developer.citymapper.com/api/1/traveltime/?"
             ++ join "&" entries
    /\ entries ≡ₚ ["key=123"; "startcoord=1,2"; "endcoord=1,3"]
    /\ String.prefix
         "https://developer.citymapper.com/api/1/traveltime/?" url = true
    /\ heap (_make_url' params s).2 !! params
       = Some {[ "key" := VStr "123";
                 "startcoord" := VStr "1,2";
                 "endcoord" := VStr "1,3" ]}
    /\ In url traveltime_urls
    /\ count_sub "key=123" url = 1%nat
    /\ count_sub "startcoord=1,2" url = 1%nat
    /\ count_sub "endcoord=1,3" url = 1%nat
    /\ count_sub "&" url = 2%nat
    /\ count_sub "node=" url = 0%nat.
Proof.
  intros Hkey Hbase H.
  rewrite (_make_url_at params _ node_traveltime s H eq_refl).
  cbv zeta. rewrite Hkey. simpl fst. simpl snd.
  set (d' := <["key" := VStr "123"]> (delete "node" _)).
  assert (Ed : d' = {[ "key" := VStr "123"; "startcoord" := VStr "1,2";
                       "endcoord" := VStr "1,3" ]})
    by (vm_compute; reflexivity).
  assert (El : map_to_list d'
               = [("key", VStr "123"); ("startcoord", VStr "1,2");
                  ("endcoord", VStr "1,3")])
    by (vm_compute; reflexivity).
  assert (Hstr : Forall (fun kv => is_str kv.2) (iteritems d')).
  { rewrite (iteritems_perm d'), El. repeat constructor. }
  assert (Hp : map render (iteritems d')
               ≡ₚ ["key=123"; "startcoord=1,2"; "endcoord=1,3"]).
  { change (render <$> iteritems d' ≡ₚ render <$> [("key", VStr "123");
              ("startcoord", VStr "1,2"); ("endcoord", VStr "1,3")]).
    rewrite <- El. now rewrite (iteritems_perm d'). }
  assert (Hheap : <[params := d']> (heap s) !! params
                  = Some {[ "key" := VStr "123"; "startcoord" := VStr "1,2";
                            "endcoord" := VStr "1,3" ]}).
  { rewrite <- Ed. apply list_lookup_insert_eq. eauto using lookup_lt_Some. }
  unfold url_of. rewrite (comprehension_render _ Hstr), Hbase.
  clear Hstr.
  remember (map render (iteritems d')) as entries eqn:He. clear He.
  exists ("https://developer.citymapper.com/api/1/traveltime/?"
          ++ join "&" entries), entries.
  split; [reflexivity|]. split; [reflexivity|]. split; [exact Hp|].
  split; [apply prefix_append|]. split; [exact Hheap|].
  clear Hheap.
  destruct (Permutation_three entries _ _ _ Hp)
    as [-> | [-> | [-> | [-> | [-> | ->]]]]];
    (split; [vm_compute; tauto|]); repeat split; vm_compute; reflexivity.
Qed.

End Builder.

Lemma _make_url_mutates_params_witness :
  exists d',
    heap (_make_url no_str map_to_list 0%nat asking).2 !! 0%nat = Some d'
    /\ d' !! "node" = None
    /\ d' !! "key" = Some (VStr "123")
    /\ (forall k, k <> "node" -> k <> "key" ->
                  d' !! k = traveltime_params !! k)
    /\ (forall q, q <> 0%nat ->
                  heap (_make_url no_str map_to_list 0%nat asking).2 !! q
                  = heap asking !! q)
    /\ self (_make_url no_str map_to_list 0%nat asking).2 = self asking
    /\ trace (_make_url no_str map_to_list 0%nat asking).2 = trace asking.
Proof.
  apply (_make_url_mutates_params no_str map_to_list 0%nat
           traveltime_params node_traveltime asking); reflexivity.
Defined.

Lemma _make_url_traveltime_witness :
  exists url entries,
    (_make_url no_str map_to_list 0%nat asking).1 = Ok url
    /\ url = "https://developer.citymapper.com/api/1/traveltime/?"
             ++ join "&" entries
    /\ entries ≡ₚ ["key=123"; "startcoord=1,2"; "endcoord=1,3"]
    /\ String.prefix
         "https://developer.citymapper.com/api/1/traveltime/?" url = true
    /\ heap (_make_url no_str map_to_list 0%nat asking).2 !! 0%nat
       = Some {[ "key" := VStr "123";
                 "startcoord" := VStr "1,2";
                 "endcoord" := VStr "1,3" ]}
    /\ In url traveltime_urls
    /\ count_sub "key=123" url = 1%nat
    /\ count_sub "startcoord=1,2" url = 1%nat
    /\ count_sub "endcoord=1,3" url = 1%nat
    /\ count_sub "&" url = 2%nat
    /\ count_sub "node=" url = 0%nat.
Proof.
  apply (_make_url_traveltime no_str map_to_list
           (fun d => Permutation_refl (map_to_list d)) 0%nat asking);
    reflexivity.
Defined.

(** The URL of the scenario when the dict yields its items in the order of
    [map_to_list]. *)
Example _make_url_traveltime_text :
  (_make_url no_str map_to_list 0%nat asking).1
  = Ok "https://developer.citymapper.com/api/1/traveltime/?key=123&startcoord=1,2&endcoord=1,3".
Proof. vm_compute. reflexivity. Qed.

(** ** The transit request *)

Lemma in_singleton_arrival (v : value) :
  in_singleton v "arrival" = true <-> is_arrival v.
Proof.
  unfold is_arrival. split.
  - destruct v; simpl; try discriminate;
      intros H; apply String.eqb_eq in H; subst; auto.
  - intros [-> | ->]; reflexivity.
Qed.

(** What is empty is not ['arrival']. *)
Lemma in_singleton_falsy (v : value) :
  truthy v = false -> in_singleton v "arrival" = false.
Proof.
  destruct v as [|b|z|x|s|s|l|l|l|d]; simpl; try reflexivity;
    destruct (String.eqb_spec s "arrival") as [->|_]; try reflexivity;
    discriminate.
Qed.

Lemma _transit_arrival (origin destination time time_type : value) (s : state)
    (o d : string) :
  truthy time = true -> in_singleton time_type "arrival" = true ->
  normalize_position origin = Ok o -> normalize_position destination = Ok d ->
  _transit origin destination time time_type s
  = (Ok (length (heap s)),
     with_trace (trace s ++ [Warn iso_8601])
       (with_heap (heap s ++ [timed_params time time_type o d]) s)).
Proof.
  intros Ht Ha Ho Hd. unfold _transit.
  rewrite (bind_Ok _ _ _ _ _ (new_dict_at s)).
  erewrite bind_Ok by (apply setitem_last; reflexivity).
  rewrite Ht, Ha.
  erewrite bind_Ok; cycle 1.
  { erewrite bind_Ok by (apply setitem_last; reflexivity).
    erewrite bind_Ok by reflexivity.
    apply setitem_last. reflexivity. }
  rewrite Ho. erewrite bind_Ok by reflexivity.
  erewrite bind_Ok by (apply setitem_last; reflexivity).
  rewrite Hd. erewrite bind_Ok by reflexivity.
  erewrite bind_Ok by (apply setitem_last; reflexivity).
  reflexivity.
Qed.

Lemma _transit_not_arrival (origin destination time time_type : value)
    (s : state) :
  truthy time = true -> in_singleton time_type "arrival" = false ->
  _transit origin destination time time_type s
  = (Raise Exception
       (if truthy time_type then must_be_arrival else must_be_provided),
     checking time s).
Proof.
  intros Ht Ha. unfold _transit.
  rewrite (bind_Ok _ _ _ _ _ (new_dict_at s)).
  erewrite bind_Ok by (apply setitem_last; reflexivity).
  rewrite Ht, Ha.
  erewrite bind_Raise; [reflexivity|].
  erewrite bind_Ok by (apply setitem_last; reflexivity).
  erewrite bind_Ok by reflexivity.
  destruct (truthy time_type); reflexivity.
Qed.

Lemma gets_checking (time : value) (s : state) :
  gets (trace (checking time s)) = gets (trace s).
Proof. unfold gets. simpl. rewrite omap_app. simpl. apply app_nil_r. Qed.

Section Transit.

Variable asyncio : bool.
Variable response : Type.
Variable requests_get : string -> outcome response.
Variable json : response -> outcome value.
Variable py_str : value -> outcome string.
Variable iteritems : dict -> list (string * value).

Abbreviation transit' :=
  (transit asyncio response requests_get json py_str iteritems).

Lemma transit_not_arrival (origin destination time time_type : value)
    (s : state) :
  truthy time = true -> in_singleton time_type "arrival" = false ->
  configuration_error
    (if truthy time_type then must_be_arrival else must_be_provided)
    (_transit origin destination time time_type s)
    (transit' origin destination time time_type s) s.
Proof.
  intros Ht Ha. unfold configuration_error, transit.
  rewrite (bind_Raise _ _ _ _ _ _
             (_transit_not_arrival origin destination time time_type s Ht Ha)).
  rewrite (_transit_not_arrival origin destination time time_type s Ht Ha).
  repeat split. exact (gets_checking time s).
Qed.

(** C4. A transit request with a time.  When [time_type] is ['arrival'] no
    configuration error is raised: for an origin and a destination the
    normalizer accepts, the parameters are built and hold the time and the
    [time_type].  Any other [time_type] that is not empty raises the
    configuration error that it must be "arrival"; a [time_type] left out
    ([None]) or empty raises the configuration error that it must be
    provided.  In both cases [transit] ends there: no network call is made
    and the client is as it was. *)
Theorem _transit_time_type (origin destination time time_type : value)
    (s : state) :
  truthy time = true ->
  (is_arrival time_type ->
   forall o d,
     normalize_position origin = Ok o ->
     normalize_position destination = Ok d ->
     exists params s',
       _transit origin destination time time_type s = (Ok params, s')
       /\ heap s' !! params = Some (timed_params time time_type o d)
       /\ timed_params time time_type o d !! "time" = Some time
       /\ timed_params time time_type o d !! "time_type" = Some time_type
       /\ gets (trace s') = gets (trace s))
  /\ (~ is_arrival time_type -> truthy time_type = true ->
      configuration_error must_be_arrival
        (_transit origin destination time time_type s)
        (transit' origin destination time time_type s) s)
  /\ (time_type = VNone \/ truthy time_type = false ->
      configuration_error must_be_provided
        (_transit origin destination time time_type s)
        (transit' origin destination time time_type s) s).
Proof.
  intros Ht. split; [|split].
  - intros Ha o d Ho Hd. apply in_singleton_arrival in Ha.
    rewrite (_transit_arrival origin destination time time_type s o d
               Ht Ha Ho Hd).
    eexists _, _. split; [reflexivity|]. simpl.
    split; [now apply list_lookup_middle|].
    split; [unfold timed_params;
            now rewrite !lookup_insert_ne, lookup_insert_eq by discriminate|].
    split; [unfold timed_params;
            now rewrite !lookup_insert_ne, lookup_insert_eq by discriminate|].
    unfold gets. rewrite omap_app. simpl. apply app_nil_r.
  - intros Hn Htt.
    assert (Ha : in_singleton time_type "arrival" = false).
    { destruct (in_singleton time_type "arrival") eqn:E; [|reflexivity].
      apply in_singleton_arrival in E. contradiction. }
    pose proof (transit_not_arrival origin destination time time_type s Ht Ha)
      as H.
    now rewrite Htt in H.
  - intros Hf.
    assert (Hf' : truthy time_type = false)
      by (destruct Hf as [-> | Hf]; [reflexivity | exact Hf]).
    pose proof (transit_not_arrival origin destination time time_type s Ht
                  (in_singleton_falsy time_type Hf')) as H.
    now rewrite Hf' in H.
Qed.

End Transit.

Lemma _transit_time_type_witness :
  (exists params s',
      _transit (VList [VInt 1; VInt 2]) (VList [VInt 1; VInt 3])
        (VStr "2014-11-04T10:00:00Z") (VStr "arrival")
        (start (__init__ (VStr "123") 1000) t0)
      = (Ok params, s')
      /\ heap s' !! params
         = Some (timed_params (VStr "2014-11-04T10:00:00Z") (VStr "arrival")
                   "1,2" "1,3"))
  /\ (transit false unit answered no_json no_str map_to_list
        (VList [VInt 1; VInt 2]) (VList [VInt 1; VInt 3])
        (VStr "2014-11-04T10:00:00Z") (VStr "departure")
        (start (__init__ (VStr "123") 1000) t0)).1
     = Raise Exception must_be_arrival
  /\ (transit false unit answered no_json no_str map_to_list
        (VList [VInt 1; VInt 2]) (VList [VInt 1; VInt 3])
        (VStr "2014-11-04T10:00:00Z") VNone
        (start (__init__ (VStr "123") 1000) t0)).1
     = Raise Exception must_be_provided.
Proof.
  split; [|split].
  - destruct (proj1 (_transit_time_type false unit answered no_json no_str
                       map_to_list
                       (VList [VInt 1; VInt 2]) (VList [VInt 1; VInt 3])
                       (VStr "2014-11-04T10:00:00Z") (VStr "arrival")
                       (start (__init__ (VStr "123") 1000) t0) eq_refl)
                (or_introl eq_refl) "1,2" "1,3" eq_refl eq_refl)
      as (params & s' & H1 & H2 & _).
    exists params, s'. split; [exact H1 | exact H2].
  - refine (proj1 (proj2 (proj1 (proj2 (_transit_time_type false unit answered
              no_json no_str map_to_list
              (VList [VInt 1; VInt 2]) (VList [VInt 1; VInt 3])
              (VStr "2014-11-04T10:00:00Z") (VStr "departure")
              (start (__init__ (VStr "123") 1000) t0) eq_refl)) _ eq_refl))).
    intros [H | H]; discriminate H.
  - exact (proj1 (proj2 (proj2 (proj2 (_transit_time_type false unit answered
              no_json no_str map_to_list
              (VList [VInt 1; VInt 2]) (VList [VInt 1; VInt 3])
              (VStr "2014-11-04T10:00:00Z") VNone
              (start (__init__ (VStr "123") 1000) t0) eq_refl))
              (or_introl eq_refl)))).
Defined.

(** ** More on the dispatcher *)

Lemma gets_dispatched (asyncio : bool) (query : string) (s : state) :
  gets (trace (dispatched asyncio query s)) = (gets (trace s) ++ [query])%list.
Proof.
  unfold dispatched, pause, gets. simpl. rewrite !omap_app.
  destruct (late _ _); [destruct asyncio|]; reflexivity.
Qed.

Section Dispatcher.

Variable asyncio : bool.
Variable response : Type.
Variable requests_get : string -> outcome response.

Abbreviation request := (_request asyncio response requests_get).
Abbreviation dispatch := (dispatch_all asyncio response requests_get).

(** X1. A dispatch below the ceiling: the network call is made, once and
    as the last thing that happens, after a pause if there is one; its
    answer, or its exception, is handed on as it is; the call is counted;
    and [last_call_time] is the reading of the clock when the call went
    out. *)
Theorem _request_dispatched (query : string) (s : state) :
  api_calls (self s) + 1 < limit (self s) ->
  rate (self s) <> 0 ->
  let s' := (request query s).2 in
  (request query s).1 = requests_get query
  /\ (exists p, trace s' = (trace s ++ p ++ [Get query])%list /\ gets p = [])
  /\ api_calls (self s') = api_calls (self s) + 1
  /\ last_call_time (self s') = clock s'.
Proof.
  intros Hlt Hrate s'. subst s'.
  rewrite (_request_below asyncio response requests_get query s Hlt Hrate).
  split; [reflexivity|]. split; [|split; reflexivity].
  exists (pause asyncio (self s) (clock s)). split; [reflexivity|].
  unfold pause. destruct (late _ _); [destruct asyncio|]; reflexivity.
Qed.

(** What one dispatch leaves alone, whatever its outcome. *)
Lemma _request_frame (query : string) (s : state) :
  settings (self (request query s).2) = settings (self s)
  /\ heap (request query s).2 = heap s
  /\ exists tr, trace (request query s).2 = (trace s ++ tr)%list.
Proof.
  run_request.
  destruct (limit (self s) <=? api_calls (self s) + 1); simpl.
  { repeat split. exists []. now rewrite app_nil_r. }
  destruct (rate (self s) =? 0); simpl.
  { repeat split. exists []. now rewrite app_nil_r. }
  destruct (Float.ltb _ _); simpl; [destruct asyncio; simpl|];
    destruct (requests_get query); simpl; repeat split;
    rewrite <- ?app_assoc; eexists; reflexivity.
Qed.

(** X2. A caller's dispatches, whatever they are and however they end:
    each one is counted, refused or not; the key, the base URL, the ceiling
    and the rate of the client stay as they are; no dict is touched; and
    the trace only grows. *)
Theorem dispatch_all_invariants (calls : list (float * string)) (s : state) :
  api_calls (self (dispatch calls s).2)
  = api_calls (self s) + Z.of_nat (length calls)
  /\ settings (self (dispatch calls s).2) = settings (self s)
  /\ heap (dispatch calls s).2 = heap s
  /\ exists tr, trace (dispatch calls s).2 = (trace s ++ tr)%list.
Proof.
  revert s. induction calls as [|[d query] calls IH]; intros s.
  - simpl. repeat split; [lia|]. exists []. now rewrite app_nil_r.
  - rewrite dispatch_all_cons. cbv zeta.
    set (s1 := (elapse d s).2).
    destruct (_request_counts asyncio response requests_get query s1)
      as [Hc _].
    destruct (_request_frame query s1) as (Hs & Hh & tr1 & Ht).
    destruct (IH (request query s1).2) as (IH1 & IH2 & IH3 & tr2 & IH4).
    change (length ((d, query) :: calls)) with (S (length calls)).
    simpl. rewrite IH1, IH2, IH3, IH4, Hc, Hs, Hh, Ht.
    change (self s1) with (self s). change (trace s1) with (trace s).
    repeat split; [lia|]. exists (tr1 ++ tr2)%list. now rewrite app_assoc.
Qed.

Lemma dispatch_all_app (l1 l2 : list (float * string)) (s : state) :
  dispatch (l1 ++ l2) s
  = ((dispatch l1 s).1 ++ (dispatch l2 (dispatch l1 s).2).1,
     (dispatch l2 (dispatch l1 s).2).2)%list.
Proof.
  revert s. induction l1 as [|[d query] l1 IH]; intros s.
  - simpl. now destruct (dispatch l2 s).
  - change (((d, query) :: l1) ++ l2)%list with ((d, query) :: (l1 ++ l2))%list.
    rewrite !dispatch_all_cons. cbv zeta. rewrite IH. reflexivity.
Qed.

Lemma dispatch_all_refused (calls : list (float * string)) (s : state) :
  limit (self s) <= api_calls (self s) + 1 ->
  (dispatch calls s).1 = map (fun _ => Raise StopIteration reached) calls.
Proof.
  revert s. induction calls as [|[d query] calls IH]; intros s H.
  - reflexivity.
  - rewrite dispatch_all_cons.
    set (s1 := (elapse d s).2).
    assert (H1 : limit (self s1) <= api_calls (self s1) + 1) by exact H.
    rewrite (_request_refuses asyncio response requests_get query s1 H1).
    cbv zeta. simpl. f_equal. apply IH. simpl. lia.
Qed.

Lemma quota_split (k : value) (t : float) (l1 l2 : list (float * string)) :
  (length l1 <= 999)%nat -> l2 = [] \/ length l1 = 999%nat ->
  let r := dispatch (l1 ++ l2) (start (__init__ k 1000) t) in
  r.1 = (map (fun c => requests_get c.2) l1
         ++ map (fun _ => Raise StopIteration reached) l2)%list
  /\ gets (trace r.2) = map snd l1.
Proof.
  intros Hlen Hfull r. subst r.
  rewrite dispatch_all_app. cbn [fst snd].
  set (s0 := start (__init__ k 1000) t).
  destruct (dispatch_all_proceeds asyncio response requests_get l1 s0)
    as (H1 & H2 & H3 & H4); [simpl; lia | discriminate |].
  rewrite H1.
  destruct Hfull as [-> | Hfull].
  - simpl. rewrite H2. split; reflexivity.
  - assert (Hat : limit (self (dispatch l1 s0).2)
                  <= api_calls (self (dispatch l1 s0).2) + 1).
    { rewrite H3, H4, Hfull. simpl. lia. }
    rewrite (dispatch_all_refused l2 _ Hat).
    split; [reflexivity|].
    destruct (dispatch_all_refuses asyncio response requests_get l2 _ Hat)
      as (_ & Ht & _).
    rewrite Ht, H2. reflexivity.
Qed.

(** X3. The lifetime of a client built with the ceiling 1000: of the calls
    a caller makes, the first 999 go to the network and hand back its
    answers, all later ones are refused with [StopIteration], and the
    network sees the first 999 queries, in order, and nothing else. *)
Theorem lifetime_quota (k : value) (t : float)
    (calls : list (float * string)) :
  let r := dispatch calls (start (__init__ k 1000) t) in
  r.1 = (map (fun c => requests_get c.2) (take 999 calls)
         ++ map (fun _ => Raise StopIteration reached) (drop 999 calls))%list
  /\ gets (trace r.2) = map snd (take 999 calls).
Proof.
  pose proof (quota_split k t (take 999 calls) (drop 999 calls)) as H.
  rewrite take_drop in H. apply H.
  - rewrite length_take. lia.
  - destruct (drop 999 calls) as [|c rest] eqn:Hdrop; [now left | right].
    rewrite length_take. apply Nat.min_l.
    pose proof (length_drop calls 999) as Hd. rewrite Hdrop in Hd.
    simpl in Hd. lia.
Qed.

End Dispatcher.

Lemma _request_dispatched_witness :
  (_request false unit answered "q" near_ceiling).1 = Ok tt
  /\ api_calls (self (_request false unit answered "q" near_ceiling).2) = 999
  /\ last_call_time (self (_request false unit answered "q" near_ceiling).2)
     = clock (_request false unit answered "q" near_ceiling).2.
Proof.
  assert (H1 : api_calls (self near_ceiling) + 1 < limit (self near_ceiling))
    by (vm_compute; reflexivity).
  assert (H2 : rate (self near_ceiling) <> 0) by (vm_compute; discriminate).
  pose proof (_request_dispatched false unit answered "q" near_ceiling H1 H2)
    as (Ha & _ & Hb & Hc).
  split; [exact Ha|]. split; [exact Hb | exact Hc].
Defined.

(** ** More on the transit request *)

(** [_transit] once the checks on [time_type] are passed: the origin is
    normalized before the destination, and an exception of the normalizer
    leaves the dict as far as it was built. *)
Lemma _transit_checked (origin destination time time_type : value)
    (s : state) :
  time_ok time time_type = true ->
  _transit origin destination time time_type s
  = match normalize_position origin with
    | Raise c m =>
        (Raise c m,
         with_trace (trace s ++ warned time)
           (with_heap (heap s ++ [checked_params time time_type]) s))
    | Ok o =>
        match normalize_position destination with
        | Raise c m =>
            (Raise c m,
             with_trace (trace s ++ warned time)
               (with_heap
                  (heap s ++ [<["startcoord" := VStr o]>
                                (checked_params time time_type)]) s))
        | Ok d =>
            (Ok (length (heap s)),
             with_trace (trace s ++ warned time)
               (with_heap
                  (heap s ++ [<["endcoord" := VStr d]>
                                (<["startcoord" := VStr o]>
                                   (checked_params time time_type))]) s))
        end
    end.
Proof.
  unfold time_ok, warned, checked_params. intros Hok. unfold _transit.
  rewrite (bind_Ok _ _ _ _ _ (new_dict_at s)).
  erewrite bind_Ok by (apply setitem_last; reflexivity).
  destruct (truthy time); simpl in Hok.
  - rewrite Hok.
    erewrite bind_Ok; cycle 1.
    { erewrite bind_Ok by (apply setitem_last; reflexivity).
      erewrite bind_Ok by reflexivity.
      apply setitem_last. reflexivity. }
    destruct (normalize_position origin) as [o|c m].
    + erewrite bind_Ok by reflexivity.
      erewrite bind_Ok by (apply setitem_last; reflexivity).
      destruct (normalize_position destination) as [d|c m].
      * erewrite bind_Ok by reflexivity.
        erewrite bind_Ok by (apply setitem_last; reflexivity).
        reflexivity.
      * erewrite bind_Raise by reflexivity. reflexivity.
    + erewrite bind_Raise by reflexivity. reflexivity.
  - erewrite bind_Ok by reflexivity.
    destruct (normalize_position origin) as [o|c m].
    + erewrite bind_Ok by reflexivity.
      erewrite bind_Ok by (apply setitem_last; reflexivity).
      destruct (normalize_position destination) as [d|c m].
      * erewrite bind_Ok by reflexivity.
        erewrite bind_Ok by (apply setitem_last; reflexivity).
        unfold mret, M_ret, with_trace, with_heap. simpl.
        now rewrite app_nil_r.
      * erewrite bind_Raise by reflexivity.
        unfold with_trace, with_heap. simpl. now rewrite app_nil_r.
    + erewrite bind_Raise by reflexivity.
      unfold with_trace, with_heap. simpl. now rewrite app_nil_r.
Qed.

Lemma time_ok_false (time time_type : value) :
  time_ok time time_type = false ->
  truthy time = true /\ in_singleton time_type "arrival" = false.
Proof.
  unfold time_ok. destruct (truthy time), (in_singleton time_type "arrival");
    simpl; intros H; try discriminate; auto.
Qed.

Lemma _transit_plain (origin destination time time_type : value)
    (s : state) (o d : string) :
  truthy time = false ->
  normalize_position origin = Ok o ->
  normalize_position destination = Ok d ->
  _transit origin destination time time_type s
  = (Ok (length (heap s)), with_heap (heap s ++ [plain_params o d]) s).
Proof.
  intros Ht Ho Hd.
  rewrite _transit_checked by (unfold time_ok; now rewrite Ht).
  rewrite Ho, Hd. unfold warned, checked_params. rewrite Ht.
  unfold with_trace, with_heap, plain_params. simpl.
  now rewrite app_nil_r.
Qed.

Lemma all_str_plain_params (o d : string) : all_str (plain_params o d).
Proof.
  intros k v. unfold plain_params.
  destruct (decide (k = "endcoord")) as [->|H1];
    [rewrite lookup_insert_eq; now intros [= <-]|].
  rewrite lookup_insert_ne by congruence.
  destruct (decide (k = "startcoord")) as [->|H2];
    [rewrite lookup_insert_eq; now intros [= <-]|].
  rewrite lookup_insert_ne by congruence.
  destruct (decide (k = "node")) as [->|H3];
    [rewrite lookup_singleton_eq; now intros [= <-]|].
  rewrite lookup_singleton_ne by congruence. discriminate.
Qed.

(** X4. Without a time (left out, or empty) [time_type] is not looked at:
    whatever it is, no warning is given and no configuration error raised,
    and for an origin and a destination the normalizer accepts the
    parameters are those of the node and the two coordinates, in a new
    dict. *)
Theorem _transit_untimed (origin destination time time_type : value)
    (s : state) (o d : string) :
  truthy time = false ->
  normalize_position origin = Ok o ->
  normalize_position destination = Ok d ->
  _transit origin destination time time_type s
  = (Ok (length (heap s)), with_heap (heap s ++ [plain_params o d]) s)
  /\ dom (plain_params o d) = {[ "node"; "startcoord"; "endcoord" ]}.
Proof.
  intros Ht Ho Hd. split.
  - now apply _transit_plain.
  - unfold plain_params. rewrite !dom_insert_L, dom_singleton_L.
    set_solver.
Qed.

(** X5. What [_transit] does to the world, whatever it is given and
    however it ends: it makes one new dict and touches no other, it leaves
    the client and the clock alone, it warns exactly when a time is given,
    and the reference it returns is that of the new dict. *)
Theorem _transit_frame (origin destination time time_type : value)
    (s : state) :
  let r := _transit origin destination time time_type s in
  (exists d', heap r.2 = (heap s ++ [d'])%list)
  /\ self r.2 = self s
  /\ clock r.2 = clock s
  /\ trace r.2 = (trace s ++ warned time)%list
  /\ (forall params, r.1 = Ok params -> params = length (heap s)).
Proof.
  intros r. subst r.
  destruct (time_ok time time_type) eqn:Hok.
  - rewrite (_transit_checked origin destination time time_type s Hok).
    destruct (normalize_position origin) as [o|c m];
      [destruct (normalize_position destination) as [d|c m]|];
      simpl; (split; [eexists; reflexivity|]); repeat split;
      intros params [=]; congruence.
  - destruct (time_ok_false time time_type Hok) as [Ht Ha].
    rewrite (_transit_not_arrival origin destination time time_type s Ht Ha).
    unfold warned. rewrite Ht. simpl.
    split; [eexists; reflexivity|]. repeat split. intros params [=].
Qed.

Section Requests.

Variable asyncio : bool.
Variable response : Type.
Variable requests_get : string -> outcome response.
Variable json : response -> outcome value.
Variable py_str : value -> outcome string.
Variable iteritems : dict -> list (string * value).
Hypothesis iteritems_perm : forall d, iteritems d ≡ₚ map_to_list d.

Abbreviation transit_ :=
  (transit asyncio response requests_get json py_str iteritems).
Abbreviation request_ := (_request asyncio response requests_get).

(** X6. A position the normalizer does not accept ends [transit] with the
    exception of the normalizer, that of the origin before that of the
    destination, once the checks on [time_type] are passed: no URL is
    built, no call is counted, the network is not reached. *)
Theorem transit_position_error (origin destination time time_type : value)
    (s : state) (c : exc_class) (m : exc_arg) :
  time_ok time time_type = true ->
  normalize_position origin = Raise c m
  \/ (exists o, normalize_position origin = Ok o
                /\ normalize_position destination = Raise c m) ->
  ends_early c m
    (_transit origin destination time time_type s)
    (transit_ origin destination time time_type s) s.
Proof.
  intros Hok H. unfold ends_early, transit.
  assert (E : exists s', _transit origin destination time time_type s
                         = (Raise c m, s')
                         /\ self s' = self s
                         /\ trace s' = (trace s ++ warned time)%list).
  { rewrite (_transit_checked origin destination time time_type s Hok).
    destruct H as [-> | (o & -> & ->)]; eexists; repeat split. }
  destruct E as (s' & E & Hself & Htr).
  rewrite (bind_Raise _ _ _ _ _ _ E), E. simpl.
  repeat split; [|exact Hself].
  rewrite Htr. unfold gets, warned. rewrite omap_app.
  destruct (truthy time); simpl; now rewrite app_nil_r.
Qed.

Lemma all_str_keyed (k : string) (d : dict) :
  all_str d -> all_str (keyed (VStr k) d).
Proof.
  intros H k' v. unfold keyed.
  destruct (decide (k' = "key")) as [->|Hk].
  - rewrite lookup_insert_eq. now intros [= <-].
  - rewrite lookup_insert_ne by congruence.
    destruct (decide (k' = "node")) as [->|Hn].
    + now rewrite lookup_delete_eq.
    + rewrite lookup_delete_ne by congruence. apply H.
Qed.

Lemma all_str_iteritems (d : dict) :
  all_str d -> Forall (fun kv => is_str kv.2) (iteritems d).
Proof.
  intros H. rewrite (iteritems_perm d). apply list.Forall_forall.
  intros [k v] Hin. apply elem_of_map_to_list in Hin.
  exact (H k v Hin).
Qed.

(** [_make_url] on a dict of strs, for a client whose key is a str. *)
Lemma _make_url_all_str (params : ref) (d : dict) (node k : string)
    (s : state) :
  heap s !! params = Some d -> d !! "node" = Some (VStr node) ->
  key (self s) = VStr k -> all_str d ->
  _make_url py_str iteritems params s
  = (Ok (base_url (self s) ++ node
         ++ join "&" (map render (iteritems (keyed (VStr k) d)))),
     with_heap (<[params := keyed (VStr k) d]> (heap s)) s).
Proof.
  intros H Hnode Hkey Hstr.
  rewrite (_make_url_at py_str iteritems params d (VStr node) s H Hnode).
  cbv zeta. rewrite Hkey. fold (keyed (VStr k) d).
  unfold url_of.
  rewrite (comprehension_render py_str _
             (all_str_iteritems _ (all_str_keyed k d Hstr))).
  reflexivity.
Qed.

(** X7. The URL of a dict of strs, for a client whose key is a str: the
    base, the node as it stands, and the items of the dict, without
    ['node'] and with ['key'] set to the client's key, each as [k=v] with
    nothing escaped, joined by [&] in the order the dict yields them.
    There are as many entries as the dict then has items; an item ['key']
    of the caller's is replaced by the client's.  Written out, the text
    behind the node is the first entry and then, for each further entry,
    an ampersand and the entry. *)
Theorem _make_url_of_strs (params : ref) (d : dict) (node k : string)
    (s : state) :
  heap s !! params = Some d -> d !! "node" = Some (VStr node) ->
  key (self s) = VStr k -> all_str d ->
  exists entries,
    (_make_url py_str iteritems params s).1
    = Ok (base_url (self s) ++ node ++ join "&" entries)
    /\ entries ≡ₚ map render (map_to_list (keyed (VStr k) d))
    /\ length entries = size (keyed (VStr k) d)
    /\ ("key" ++ "=" ++ k) ∈ entries
    /\ (_make_url py_str iteritems params s).1
       = Ok (base_url (self s) ++ node ++ amp_joined entries).
Proof.
  intros H Hnode Hkey Hstr.
  rewrite (_make_url_all_str params d node k s H Hnode Hkey Hstr).
  exists (map render (iteritems (keyed (VStr k) d))).
  assert (Hp : map render (iteritems (keyed (VStr k) d))
               ≡ₚ map render (map_to_list (keyed (VStr k) d))).
  { change (render <$> iteritems (keyed (VStr k) d)
            ≡ₚ render <$> map_to_list (keyed (VStr k) d)).
    now rewrite (iteritems_perm (keyed (VStr k) d)). }
  split; [reflexivity|]. split; [exact Hp|].
  split.
  { rewrite Hp, length_map. apply length_map_to_list. }
  split.
  { rewrite Hp. apply (list_elem_of_fmap_2 render _ ("key", VStr k)).
    apply elem_of_map_to_list. unfold keyed. apply lookup_insert_eq. }
  cbn [fst]. now rewrite join_amp_joined.
Qed.

Abbreviation plain_url_entries := (plain_entries iteritems).

Lemma plain_url_entries_perm (k o d : string) :
  plain_url_entries k o d
  ≡ₚ ["key" ++ "=" ++ k; "startcoord" ++ "=" ++ o; "endcoord" ++ "=" ++ d].
Proof.
  unfold plain_entries.
  assert (El : map_to_list (keyed (VStr k) (plain_params o d))
               = [("key", VStr k); ("startcoord", VStr o);
                  ("endcoord", VStr d)])
    by (vm_compute; reflexivity).
  change (render <$> iteritems (keyed (VStr k) (plain_params o d))
          ≡ₚ render <$> [("key", VStr k); ("startcoord", VStr o);
                         ("endcoord", VStr d)]).
  rewrite <- El. now rewrite (iteritems_perm _).
Qed.

(** [transit] without a time, up to the dispatch. *)
Lemma transit_untimed_at (origin destination time time_type : value)
    (s : state) (k o d : string) :
  truthy time = false ->
  normalize_position origin = Ok o ->
  normalize_position destination = Ok d ->
  key (self s) = VStr k ->
  transit_ origin destination time time_type s
  = (r ← request_
           (base_url (self s) ++ "api/1/traveltime/?"
            ++ join "&" (plain_url_entries k o d));
     lift (json r))
      (with_heap (heap s ++ [keyed (VStr k) (plain_params o d)]) s).
Proof.
  intros Ht Ho Hd Hkey. unfold transit.
  rewrite (bind_Ok _ _ _ _ _
             (_transit_plain origin destination time time_type s o d
                Ht Ho Hd)).
  erewrite bind_Ok; cycle 1.
  { apply (_make_url_all_str (length (heap s)) (plain_params o d)
             "api/1/traveltime/?" k).
    - simpl. now apply list_lookup_middle.
    - reflexivity.
    - exact Hkey.
    - apply all_str_plain_params. }
  simpl. rewrite insert_app_r_alt, Nat.sub_diag by reflexivity.
  reflexivity.
Qed.

(** X8. A transit request without a time, from a client below its ceiling
    whose key is a str, for an origin and a destination the normalizer
    accepts: one network call is made, to the URL of the base, the node
    [api/1/traveltime/?] and the entries [key], [startcoord] and
    [endcoord] in the order of the dict; what [transit] returns is the
    JSON of the answer, or the exception of the network call or of the
    decoding; and the call is counted.  Written out, the text behind the
    node is the first entry and then, for each further entry, an ampersand
    and the entry. *)
Theorem transit_dispatches (origin destination time time_type : value)
    (s : state) (k o d : string) :
  truthy time = false ->
  normalize_position origin = Ok o ->
  normalize_position destination = Ok d ->
  key (self s) = VStr k ->
  api_calls (self s) + 1 < limit (self s) ->
  rate (self s) <> 0 ->
  exists url entries,
    entries
    ≡ₚ ["key" ++ "=" ++ k; "startcoord" ++ "=" ++ o; "endcoord" ++ "=" ++ d]
    /\ url = base_url (self s) ++ "api/1/traveltime/?" ++ join "&" entries
    /\ (transit_ origin destination time time_type s).1
       = (r ← requests_get url; json r)
    /\ gets (trace (transit_ origin destination time time_type s).2)
       = (gets (trace s) ++ [url])%list
    /\ api_calls (self (transit_ origin destination time time_type s).2)
       = api_calls (self s) + 1
    /\ url = base_url (self s) ++ "api/1/traveltime/?" ++ amp_joined entries.
Proof.
  intros Ht Ho Hd Hkey Hlt Hrate.
  exists (base_url (self s) ++ "api/1/traveltime/?"
          ++ join "&" (plain_url_entries k o d)),
         (plain_url_entries k o d).
  split; [apply plain_url_entries_perm|]. split; [reflexivity|].
  assert (Hamp : base_url (self s) ++ "api/1/traveltime/?"
                 ++ join "&" (plain_url_entries k o d)
                 = base_url (self s) ++ "api/1/traveltime/?"
                   ++ amp_joined (plain_url_entries k o d))
    by now rewrite join_amp_joined.
  revert Hamp.
  rewrite (transit_untimed_at origin destination time time_type s k o d
             Ht Ho Hd Hkey).
  set (url := base_url (self s) ++ _).
  set (s2 := with_heap _ s).
  assert (E : (r ← request_ url; lift (json r)) s2
              = (r ← requests_get url; json r, dispatched asyncio url s2)).
  { unfold mbind at 1, M_bind.
    rewrite (_request_below asyncio response requests_get url s2 Hlt Hrate).
    destruct (requests_get url); reflexivity. }
  rewrite E. cbn [fst snd]. intros Hamp.
  split; [reflexivity|].
  split; [exact (gets_dispatched asyncio url s2)|].
  split; [reflexivity | exact Hamp].
Qed.

(** X9. The same request from a client at its ceiling: the parameters and
    the URL are built and then the dispatcher refuses; [transit] raises
    [StopIteration], the network is not reached, and the call is counted
    all the same. *)
Theorem transit_at_ceiling (origin destination time time_type : value)
    (s : state) (k o d : string) :
  truthy time = false ->
  normalize_position origin = Ok o ->
  normalize_position destination = Ok d ->
  key (self s) = VStr k ->
  limit (self s) <= api_calls (self s) + 1 ->
  (transit_ origin destination time time_type s).1
  = Raise StopIteration reached
  /\ trace (transit_ origin destination time time_type s).2 = trace s
  /\ api_calls (self (transit_ origin destination time time_type s).2)
     = api_calls (self s) + 1
  /\ heap (transit_ origin destination time time_type s).2
     = (heap s ++ [keyed (VStr k) (plain_params o d)])%list.
Proof.
  intros Ht Ho Hd Hkey Hle.
  rewrite (transit_untimed_at origin destination time time_type s k o d
             Ht Ho Hd Hkey).
  set (url := base_url (self s) ++ _).
  set (s2 := with_heap _ s).
  assert (E : (r ← request_ url; lift (json r)) s2
              = (Raise StopIteration reached,
                 with_self (counted (self s2)) s2)).
  { unfold mbind at 1, M_bind.
    now rewrite (_request_refuses asyncio response requests_get url s2 Hle). }
  rewrite E. repeat split.
Qed.

(** X10. No ['node'], no URL: [_make_url] raises [KeyError] for the key
    ['node'] and has changed nothing, not even the dict. *)
Theorem _make_url_without_node (params : ref) (d : dict) (s : state) :
  heap s !! params = Some d -> d !! "node" = None ->
  _make_url py_str iteritems params s = (Raise KeyError (Key "node"), s).
Proof.
  intros H Hnode. unfold _make_url.
  now rewrite (bind_Raise _ _ _ _ _ _ (pop_missing params "node" d s H Hnode)).
Qed.

(** [_make_url] is silent and leaves the client and the clock alone,
    however it ends. *)
Lemma _make_url_frame (params : ref) (s : state) :
  trace (_make_url py_str iteritems params s).2 = trace s
  /\ self (_make_url py_str iteritems params s).2 = self s.
Proof.
  destruct (heap s !! params) as [d|] eqn:H.
  - destruct (d !! "node") as [node|] eqn:Hnode.
    + rewrite (_make_url_at py_str iteritems params d node s H Hnode).
      split; reflexivity.
    + unfold _make_url.
      rewrite (bind_Raise _ _ _ _ _ _
                 (pop_missing params "node" d s H Hnode)).
      split; reflexivity.
  - unfold _make_url, pop, read, mbind, M_bind. rewrite H.
    split; reflexivity.
Qed.

(** A dispatch either raises before the network is reached or makes its
    one call. *)
Lemma _request_cases (query : string) (s : state) :
  (exists c m, (request_ query s).1 = Raise c m
               /\ trace (request_ query s).2 = trace s)
  \/ request_ query s = (requests_get query, dispatched asyncio query s).
Proof.
  destruct (Z.le_gt_cases (limit (self s)) (api_calls (self s) + 1))
    as [Hle|Hgt].
  - left. rewrite (_request_refuses asyncio response requests_get query s Hle).
    eauto.
  - destruct (decide (rate (self s) = 0)) as [H0|Hrate].
    + left. apply Z.lt_gt, Z.gt_lt, Z.leb_gt in Hgt.
      run_request. rewrite Hgt. simpl. rewrite H0. simpl. eauto.
    + right. apply _request_below; [lia | exact Hrate].
Qed.

(** X11. Whatever [transit] is given and whatever state the client is in,
    it reaches the network at most once.  Either it raises and no network
    call has been made, or exactly one has been made, the call is counted
    and what [transit] returns is the JSON of the answer, or the exception
    of the call or of the decoding. *)
Theorem transit_network_calls (origin destination time time_type : value)
    (s : state) :
  let r := transit_ origin destination time time_type s in
  ((exists c m, r.1 = Raise c m) /\ gets (trace r.2) = gets (trace s))
  \/ (exists url,
        gets (trace r.2) = (gets (trace s) ++ [url])%list
        /\ r.1 = (x ← requests_get url; json x)
        /\ api_calls (self r.2) = api_calls (self s) + 1).
Proof.
  intros r. subst r. unfold transit.
  pose proof (_transit_frame origin destination time time_type s)
    as (_ & Hself & _ & Htr & _).
  assert (Hg : gets (trace (_transit origin destination time time_type s).2)
               = gets (trace s)).
  { rewrite Htr. unfold gets, warned. rewrite omap_app.
    destruct (truthy time); simpl; now rewrite app_nil_r. }
  destruct (_transit origin destination time time_type s) as [[p|c m] s1]
    eqn:E1; simpl in Hg, Hself.
  2:{ left. rewrite (bind_Raise _ _ _ _ _ _ E1). simpl. eauto. }
  rewrite (bind_Ok _ _ _ _ _ E1).
  pose proof (_make_url_frame p s1) as [Htr2 Hself2].
  destruct (_make_url py_str iteritems p s1) as [[url|c m] s2] eqn:E2;
    simpl in Htr2, Hself2.
  2:{ left. rewrite (bind_Raise _ _ _ _ _ _ E2). simpl.
      rewrite Htr2. eauto. }
  rewrite (bind_Ok _ _ _ _ _ E2).
  destruct (_request_cases url s2) as [(c & m & Hr & Ht) | Hr].
  - left. destruct (request_ url s2) as [[x|c' m'] s3] eqn:E3;
      simpl in Hr, Ht; [discriminate|].
    rewrite (bind_Raise _ _ _ _ _ _ E3). simpl.
    rewrite Ht, Htr2. eauto.
  - right. exists url.
    assert (E : (r ← request_ url; lift (json r)) s2
                = (x ← requests_get url; json x, dispatched asyncio url s2)).
    { unfold mbind at 1, M_bind. rewrite Hr.
      destruct (requests_get url); reflexivity. }
    rewrite E. cbn [fst snd].
    rewrite (gets_dispatched asyncio url s2), Htr2, Hg.
    split; [reflexivity|]. split; [reflexivity|].
    simpl. now rewrite Hself2, Hself.
Qed.

End Requests.

Lemma _transit_untimed_witness :
  _transit (VList [VInt 1; VInt 2]) (VList [VInt 1; VInt 3]) VNone
    (VStr "departure") asking
  = (Ok 1%nat, with_heap (heap asking ++ [plain_params "1,2" "1,3"]) asking).
Proof.
  refine (proj1 (_transit_untimed (VList [VInt 1; VInt 2])
                   (VList [VInt 1; VInt 3]) VNone (VStr "departure")
                   asking "1,2" "1,3" _ _ _));
    vm_compute; reflexivity.
Defined.

Lemma transit_position_error_witness :
  (transit false unit answered no_json no_str map_to_list
     (VStr "1,2") (VList [VInt 1; VInt 3]) VNone VNone asking).1
  = Raise TypeError (Unable (VStr "1,2"))
  /\ gets (trace (transit false unit answered no_json no_str map_to_list
                    (VStr "1,2") (VList [VInt 1; VInt 3]) VNone VNone
                    asking).2) = [].
Proof.
  pose proof (transit_position_error false unit answered no_json no_str
                map_to_list (VStr "1,2") (VList [VInt 1; VInt 3]) VNone VNone
                asking TypeError (Unable (VStr "1,2")) eq_refl
                (or_introl eq_refl)) as (_ & H1 & H2 & _).
  split; [exact H1 | exact H2].
Defined.

Lemma _make_url_of_strs_witness :
  exists entries,
    (_make_url no_str map_to_list 0%nat asking).1
    = Ok ("https://developer.citymapper.com/" ++ "api/1/traveltime/?"
          ++ join "&" entries)
    /\ length entries = 3%nat.
Proof.
  assert (Hs : all_str traveltime_params).
  { intros k v. unfold traveltime_params.
    destruct (decide (k = "node")) as [->|H1];
      [rewrite lookup_insert_eq; now intros [= <-]|].
    rewrite lookup_insert_ne by congruence.
    destruct (decide (k = "startcoord")) as [->|H2];
      [rewrite lookup_insert_eq; now intros [= <-]|].
    rewrite lookup_insert_ne by congruence.
    destruct (decide (k = "endcoord")) as [->|H3];
      [rewrite lookup_singleton_eq; now intros [= <-]|].
    rewrite lookup_singleton_ne by congruence. discriminate. }
  destruct (_make_url_of_strs no_str map_to_list
              (fun d => Permutation_refl (map_to_list d))
              0%nat traveltime_params "api/1/traveltime/?" "123" asking
              eq_refl eq_refl eq_refl Hs) as (entries & H1 & _ & H3 & _).
  exists entries. split; [exact H1 | exact H3].
Defined.

Lemma transit_dispatches_witness :
  exists url,
    gets (trace (transit false unit answered no_json no_str map_to_list
                   (VList [VInt 1; VInt 2]) (VList [VInt 1; VInt 3])
                   VNone VNone near_ceiling).2) = [url]
    /\ (transit false unit answered no_json no_str map_to_list
          (VList [VInt 1; VInt 2]) (VList [VInt 1; VInt 3])
          VNone VNone near_ceiling).1 = Ok VNone.
Proof.
  assert (H1 : api_calls (self near_ceiling) + 1 < limit (self near_ceiling))
    by (vm_compute; reflexivity).
  assert (H2 : rate (self near_ceiling) <> 0) by (vm_compute; discriminate).
  destruct (transit_dispatches false unit answered no_json no_str map_to_list
              (fun d => Permutation_refl (map_to_list d))
              (VList [VInt 1; VInt 2]) (VList [VInt 1; VInt 3]) VNone VNone
              near_ceiling "123" "1,2" "1,3"
              eq_refl eq_refl eq_refl eq_refl H1 H2)
    as (url & entries & _ & _ & Hr & Hg & _).
  exists url. split; [exact Hg | exact Hr].
Defined.

Lemma transit_at_ceiling_witness :
  (transit false unit answered no_json no_str map_to_list
     (VList [VInt 1; VInt 2]) (VList [VInt 1; VInt 3])
     VNone VNone at_ceiling).1 = Raise StopIteration reached
  /\ trace (transit false unit answered no_json no_str map_to_list
              (VList [VInt 1; VInt 2]) (VList [VInt 1; VInt 3])
              VNone VNone at_ceiling).2 = [].
Proof.
  assert (H : limit (self at_ceiling) <= api_calls (self at_ceiling) + 1)
    by (vm_compute; discriminate).
  destruct (transit_at_ceiling false unit answered no_json no_str map_to_list
              (fun d => Permutation_refl (map_to_list d))
              (VList [VInt 1; VInt 2]) (VList [VInt 1; VInt 3]) VNone VNone
              at_ceiling "123" "1,2" "1,3"
              eq_refl eq_refl eq_refl eq_refl H) as (H1 & H2 & _).
  split; [exact H1 | exact H2].
Defined.

Lemma _make_url_without_node_witness :
  _make_url no_str map_to_list 0%nat nodeless
  = (Raise KeyError (Key "node"), nodeless).
Proof.
  apply (_make_url_without_node no_str map_to_list 0%nat
           {[ "startcoord" := VStr "1,2" ]} nodeless); reflexivity.
Defined.

(** ** More on the normalizer *)

Lemma every_app (P : ascii -> bool) (s t : string) :
  every P (s ++ t) = every P s && every P t.
Proof.
  induction s as [|a s IH]; [reflexivity|].
  rewrite append_cons. simpl. rewrite IH. apply andb_assoc.
Qed.



Lemma every_last (P : ascii -> bool) (c : ascii) (s : string) :
  every P s = true -> last_char s = Some c -> P c = true.
Proof.
  induction s as [|a s IH]; simpl; [discriminate|].
  intros H. apply andb_true_iff in H as [Ha Hs].
  destruct s as [|b s']; [now intros [= <-] | now apply IH].
Qed.

Lemma every_weaken (P Q : ascii -> bool) (s : string) :
  (forall a, P a = true -> Q a = true) ->
  every P s = true -> every Q s = true.
Proof.
  intros HPQ. induction s as [|a s IH]; simpl; [reflexivity|].
  intros H. apply andb_true_iff in H as [Ha Hs].
  now rewrite (HPQ a Ha), IH.
Qed.


Lemma every_digit_uint (d : Decimal.uint) :
  every digit (NilEmpty.string_of_uint d) = true.
Proof. induction d; simpl; auto. Qed.

Lemma every_digit_decimal (n : Z) : every digit (decimal n) = true.
Proof.
  unfold decimal, NilZero.string_of_uint.
  destruct (N.to_uint (Z.to_N n)) eqn:E; try reflexivity;
    rewrite <- E; apply every_digit_uint.
Qed.









(** X13. The normalizer reads two components and no more: a list or a
    tuple is taken for its first two elements whatever follows them, and a
    dict for its ['lat'] and ['lng'] whatever else it holds. *)
Theorem normalize_position_reads_two :
  (forall a b rest,
      normalize_position (VList (a :: b :: rest))
      = normalize_position (VList [a; b])
      /\ normalize_position (VTuple (a :: b :: rest))
         = normalize_position (VTuple [a; b]))
  /\ (forall (d : dict) k v,
        k <> "lat" -> k <> "lng" ->
        normalize_position (VDict (<[k := v]> d))
        = normalize_position (VDict d)
        /\ normalize_position (VDict (delete k d))
           = normalize_position (VDict d)).
Proof.
  split.
  - intros a b rest.
    destruct (normalize_position_pair a b rest) as [-> ->].
    destruct (normalize_position_pair a b []) as [-> ->]. auto.
  - intros d k v Hlat Hlng. unfold normalize_position, getkey.
    rewrite !lookup_insert_ne, !lookup_delete_ne by congruence. auto.
Qed.


Lemma normalize_position_reads_two_witness :
  normalize_position (VList [VInt 1; VInt 2; VStr "altitude"])
  = normalize_position (VList [VInt 1; VInt 2])
  /\ normalize_position
       (VDict (<["name" := VStr "home"]> {[ "lat" := VInt 1; "lng" := VInt 2 ]}))
     = normalize_position (VDict {[ "lat" := VInt 1; "lng" := VInt 2 ]}).
Proof.
  split.
  - exact (proj1 (proj1 normalize_position_reads_two
                    (VInt 1) (VInt 2) [VStr "altitude"])).
  - refine (proj1 (proj2 normalize_position_reads_two
                     {[ "lat" := VInt 1; "lng" := VInt 2 ]} "name"
                     (VStr "home") _ _)); discriminate.
Defined.


(** ** Whole numbers *)

Lemma rstrip_app_keep (c : ascii) (s t : string) :
  rstrip c t <> "" -> rstrip c (s ++ t) = s ++ rstrip c t.
Proof.
  intros Ht. induction s as [|a s IH]; [reflexivity|].
  rewrite !append_cons. simpl. rewrite IH.
  destruct (s ++ rstrip c t) as [|b r] eqn:E; [|reflexivity].
  destruct s; [rewrite append_nil in E; contradiction | discriminate].
Qed.

Lemma rstrip_app_char (c : ascii) (s : string) :
  last_char s <> Some c -> rstrip c (s ++ String c "") = s.
Proof.
  induction s as [|a s IH]; intros H.
  - rewrite append_nil. simpl. now rewrite Ascii.eqb_refl.
  - rewrite append_cons. simpl.
    destruct s as [|b s'].
    + rewrite append_nil. simpl. rewrite Ascii.eqb_refl.
      destruct (Ascii.eqb_spec a c) as [->|_]; [now destruct H | reflexivity].
    + rewrite IH by exact H. reflexivity.
Qed.

Lemma scaled_whole (m : positive) (e k : Z) :
  whole m e k -> Float.scaled m e 6 = k * 10 ^ 6.
Proof.
  unfold whole, Float.scaled, Float.round_half_even.
  intros [[He <-] | [He Hm]].
  - apply Z.leb_le in He. now rewrite He.
  - assert (Hd : 0 < 2 ^ (- e)) by (apply Z.pow_pos_nonneg; lia).
    apply Z.leb_gt in He. rewrite He, Hm.
    replace (k * 2 ^ (- e) * 10 ^ 6) with (k * 10 ^ 6 * 2 ^ (- e)) by ring.
    rewrite Z.div_mul, Z.mod_mul by lia.
    replace (2 * 0) with 0 by reflexivity.
    destruct (0 ?= 2 ^ (- e)) eqn:E; try reflexivity;
      apply Z.compare_lt_iff in Hd; congruence.
Qed.

Lemma format_f_whole (s : bool) (m : positive) (e k : Z) :
  whole m e k ->
  format_f (S754_finite s m e)
  = ((if s then "-" else "") ++ decimal k) ++ ".000000".
Proof.
  intros H. unfold format_f. rewrite (scaled_whole m e k H).
  rewrite Z.div_mul, Z.mod_mul by discriminate.
  change (zfill 6 (decimal 0)) with "000000".
  now rewrite append_assoc.
Qed.

Lemma digit_signed_digit (a : ascii) :
  digit a = true -> signed_digit a = true.
Proof. intros H. unfold signed_digit. now rewrite H. Qed.

Lemma strip_whole (s : bool) (m : positive) (e k : Z) :
  whole m e k ->
  rstrip "." (rstrip "0" (format_f (S754_finite s m e)))
  = (if s then "-" else "") ++ decimal k.
Proof.
  intros H. rewrite (format_f_whole s m e k H).
  rewrite rstrip_app_keep by discriminate.
  change (rstrip "0" ".000000") with ".".
  apply rstrip_app_char.
  intros Hl.
  assert (E : every signed_digit ((if s then "-" else "") ++ decimal k) = true).
  { rewrite every_app.
    rewrite (every_weaken digit signed_digit (decimal k)
               digit_signed_digit (every_digit_decimal k)).
    destruct s; reflexivity. }
  pose proof (every_last signed_digit "." _ E Hl) as Hp. discriminate Hp.
Qed.

(** X15. A float that is a whole number is written as that number, without
    point and without zeros after it, behind its sign. *)
Theorem float2str_whole (s : bool) (m : positive) (e k : Z) :
  whole m e k ->
  float2str (VFloat (S754_finite s m e))
  = Ok ((if s then "-" else "") ++ decimal k).
Proof.
  intros H. unfold float2str, format_spec_f.
  change (Ok (format_f (S754_finite s m e))
          ≫= (fun t : string => Ok (rstrip "." (rstrip "0" t))))
    with (Ok (A := string)
            (rstrip "." (rstrip "0" (format_f (S754_finite s m e))))).
  f_equal. now apply strip_whole.
Qed.

Lemma float2str_whole_witness :
  float2str (VFloat (Float.literal 12400 2)) = Ok "124"
  /\ float2str (VFloat (Float.literal (-3) 0)) = Ok "-3".
Proof.
  split.
  - refine (float2str_whole false _ (-46) 124 _).
    right. split; vm_compute; reflexivity.
  - refine (float2str_whole true _ (-51) 3 _).
    right. split; vm_compute; reflexivity.
Defined.

(** ** Integers *)

Lemma iter_xO_value (p n : positive) :
  Z.pos (Pos.iter xO p n) = Z.pos p * 2 ^ Z.pos n.
Proof.
  induction n as [|n IH] using Pos.peano_ind.
  - simpl. lia.
  - rewrite Pos.iter_succ, Pos2Z.inj_succ, Z.pow_succ_r by lia.
    rewrite Pos2Z.inj_xO, IH. ring.
Qed.

Lemma iter_xO_digits (p n : positive) :
  Z.pos (digits2_pos (Pos.iter xO p n)) = Z.pos (digits2_pos p) + Z.pos n.
Proof.
  induction n as [|n IH] using Pos.peano_ind.
  - simpl. lia.
  - rewrite Pos.iter_succ. simpl digits2_pos.
    rewrite !Pos2Z.inj_succ, IH. lia.
Qed.

Lemma digits2_pos_bound (p : positive) (k : Z) :
  0 <= k -> Z.pos p < 2 ^ k -> Z.pos (digits2_pos p) <= k.
Proof.
  revert k. induction p as [p IH|p IH|]; intros k Hk H.
  - assert (0 < k) by (destruct (Z.eq_dec k 0) as [->|]; [simpl in H|]; lia).
    replace k with (Z.succ (k - 1)) in H by lia.
    rewrite Z.pow_succ_r in H by lia.
    simpl digits2_pos. rewrite Pos2Z.inj_succ.
    specialize (IH (k - 1)). lia.
  - assert (0 < k) by (destruct (Z.eq_dec k 0) as [->|]; [simpl in H|]; lia).
    replace k with (Z.succ (k - 1)) in H by lia.
    rewrite Z.pow_succ_r in H by lia.
    simpl digits2_pos. rewrite Pos2Z.inj_succ.
    specialize (IH (k - 1)). lia.
  - destruct (Z.eq_dec k 0) as [->|]; [simpl in H|simpl]; lia.
Qed.

(** A mantissa of 53 bits is not rounded. *)
Lemma binary_round_aux_exact (s : bool) (m : positive) (e : Z) :
  Z.pos (digits2_pos m) = 53 -> - 1074 <= e <= 971 ->
  binary_round_aux Float.prec Float.emax s (Z.pos m) e loc_Exact
  = S754_finite s m e.
Proof.
  intros Hd He.
  assert (H0 : fexp Float.prec Float.emax (Z.pos (digits2_pos m) + e) - e = 0).
  { unfold fexp, emin, Float.prec, Float.emax. rewrite Hd. lia. }
  unfold binary_round_aux, shr_fexp, Zdigits2. rewrite H0.
  unfold shr, shr_record_of_loc, loc_of_shr_record, shr_m,
    round_nearest_even, Zdigits2.
  rewrite H0.
  assert (Hle : (e <=? Float.emax - Float.prec) = true)
    by (apply Z.leb_le; unfold Float.emax, Float.prec; lia).
  now rewrite Hle.
Qed.

(** The float of an integer below [2^53] is that integer. *)
Lemma binary_round_small (s : bool) (p : positive) :
  Z.pos p < 2 ^ 53 ->
  exists m e,
    binary_round Float.prec Float.emax s p 0 = S754_finite s m e
    /\ whole m e (Z.pos p).
Proof.
  intros H.
  pose proof (digits2_pos_bound p 53 ltac:(lia) H) as Hd.
  assert (Hf : fexp Float.prec Float.emax (Z.pos (digits2_pos p) + 0)
               = Z.pos (digits2_pos p) - 53).
  { unfold fexp, emin, Float.prec, Float.emax. lia. }
  unfold binary_round, shl_align. rewrite Hf.
  destruct (Z.pos (digits2_pos p) - 53 - 0) as [|q|q] eqn:E; try lia.
  - exists p, 0. split.
    + apply binary_round_aux_exact; lia.
    + left. split; lia.
  - exists (Pos.iter xO p q), (Z.pos (digits2_pos p) - 53). split.
    + apply binary_round_aux_exact; [rewrite iter_xO_digits|]; lia.
    + right. split; [lia|].
      rewrite iter_xO_value. f_equal. f_equal. lia.
Qed.

Lemma of_Z_small (z : Z) :
  z <> 0 -> Z.abs z < 2 ^ 53 ->
  exists m e,
    Float.of_Z z = S754_finite (z <? 0) m e /\ whole m e (Z.abs z).
Proof.
  intros Hz H. unfold Float.of_Z, binary_normalize.
  destruct z as [|p|p]; [now destruct Hz | |];
    apply (binary_round_small _ p H).
Qed.

Lemma float2str_small (z : Z) :
  Z.abs z < 2 ^ 53 -> float2str (VInt z) = Ok (int_text z).
Proof.
  intros H. destruct (Z.eq_dec z 0) as [->|Hz]; [reflexivity|].
  destruct (of_Z_small z Hz H) as (m & e & Hf & Hw).
  unfold float2str, format_spec_f. rewrite Hf.
  change (Ok (format_f (S754_finite (z <? 0) m e))
          ≫= (fun t : string => Ok (rstrip "." (rstrip "0" t))))
    with (Ok (A := string)
            (rstrip "." (rstrip "0" (format_f (S754_finite (z <? 0) m e))))).
  f_equal. now apply strip_whole.
Qed.

(** X16. Integers below [2^53] in size come out of the normalizer as they
    went in: each is written in decimal behind its sign, without a point,
    whether the position is a list, a tuple or a dict. *)
Theorem normalize_position_integers (x : value) (a b : Z) :
  components x = Some (VInt a, VInt b) ->
  Z.abs a < 2 ^ 53 -> Z.abs b < 2 ^ 53 ->
  float2str (VInt a) = Ok (int_text a)
  /\ float2str (VInt b) = Ok (int_text b)
  /\ normalize_position x = Ok (int_text a ++ "," ++ int_text b).
Proof.
  intros Hc Ha Hb.
  rewrite (normalize_position_components x _ _ Hc).
  rewrite (float2str_small a Ha), (float2str_small b Hb).
  repeat split.
Qed.

Lemma normalize_position_integers_witness :
  normalize_position (VTuple [VInt 51; VInt (-2)]) = Ok ("51" ++ "," ++ "-2").
Proof.
  refine (proj2 (proj2 (normalize_position_integers
                          (VTuple [VInt 51; VInt (-2)]) 51 (-2) _ _ _)));
    vm_compute; reflexivity.
Defined.
